(** * Signalstack: the feedback worker of [src/index.js]

    A shallow embedding of the Cloudflare Worker's [fetch] handler and of the
    platform services it calls (JSON, D1, Workers AI), followed by the
    properties of the classifier adapter, the ingestion handler, the summary
    handler and the cluster/priority handler.

    Conventions of the embedding:
    - a JavaScript string is the list of its UTF-16 code units ([jsstring]);
    - a JavaScript Number is a rational ([Q]), or an infinity where JSON
      can produce one.  The handlers are first given in exact arithmetic:
      every quantity they compute is a row count, a mean of weights in
      {1,2,3} or a product of those, and order, bounds and thresholds do
      not depend on the rounding of [*] and [/].  Module [Binary64] gives
      the cluster arithmetic once more with every operation rounded to
      binary64, for the digits the response shows;
    - an [await]ed call that can reject is a computation in the monad [M],
      which threads the store and the log of classification calls and
      carries a thrown error. *)

From Stdlib Require Import List Bool Arith ZArith QArith Qabs Qround Lia Lqa.
From Stdlib Require Import Ascii String.
From Stdlib Require Qcanon.
From Stdlib Require Import Sorting.Sorted Sorting.Permutation.
Import ListNotations.

#[local] Set Warnings "-register-all".
Local Open Scope list_scope.

(** ** JavaScript strings *)

Definition jsstring := list N.

Definition str (s : string) : jsstring :=
  map N_of_ascii (list_ascii_of_string s).

(** The code unit of the double quote. *)
Definition dq : N := 34%N.

Definition quoted (s : jsstring) : jsstring := dq :: s ++ [dq].

Fixpoint jseqb (a b : jsstring) : bool :=
  match a, b with
  | [], [] => true
  | x :: a', y :: b' => N.eqb x y && jseqb a' b'
  | _, _ => false
  end.

Fixpoint is_prefix (p s : jsstring) : bool :=
  match p, s with
  | [], _ => true
  | x :: p', y :: s' => N.eqb x y && is_prefix p' s'
  | _ :: _, [] => false
  end.

(** [s.replace(/pat/g, rep)] for a literal, non-empty pattern: every
    occurrence, scanning left to right, occurrences not overlapping.
    [skip] counts the code units of a match still to be dropped. *)
Fixpoint replace_from (pat rep : jsstring) (skip : nat) (s : jsstring) : jsstring :=
  match s with
  | [] => []
  | c :: r =>
      match skip with
      | S k => replace_from pat rep k r
      | O =>
          if is_prefix pat s
          then rep ++ replace_from pat rep (Nat.pred (List.length pat)) r
          else c :: replace_from pat rep 0 r
      end
  end.

Definition replace_all (pat rep s : jsstring) : jsstring :=
  replace_from pat rep 0 s.

(** WhiteSpace and LineTerminator code units, as [String.prototype.trim]
    strips them. *)
Definition is_js_space (c : N) : bool :=
  ((9 <=? c) && (c <=? 13) || (c =? 32) || (c =? 160) || (c =? 5760)
   || (8192 <=? c) && (c <=? 8202) || (c =? 8232) || (c =? 8233)
   || (c =? 8239) || (c =? 8287) || (c =? 12288) || (c =? 65279))%N.

Fixpoint trim_start (s : jsstring) : jsstring :=
  match s with
  | c :: r => if is_js_space c then trim_start r else s
  | [] => []
  end.

Definition trim (s : jsstring) : jsstring :=
  rev (trim_start (rev (trim_start s))).

(** ** binary64 *)

Module F64.

Definition pow2 (k : Z) : Q :=
  if (0 <=? k)%Z then inject_Z (2 ^ k) else 1 # Z.to_pos (2 ^ (- k)).

(** The exponent [e] of a positive rational: [2^e <= x < 2^(e+1)]. *)
Definition ilog2 (x : Q) : Z :=
  let e0 := (Z.log2 (Qnum x) - Z.log2 (Zpos (Qden x)))%Z in
  if Qle_bool (pow2 e0) x then e0 else (e0 - 1)%Z.

(** The nearest integer, the even one of two equally near. *)
Definition rne (x : Q) : Z :=
  let f := Qfloor x in
  match Qcompare (x - inject_Z f) (1 # 2) with
  | Lt => f
  | Gt => (f + 1)%Z
  | Eq => if Z.even f then f else (f + 1)%Z
  end.

(** The nearest multiple of the spacing of binary64 at [x]: 53 significant
    bits, and no spacing below [2^-1074]. *)
Definition round_pos (x : Q) : Q :=
  let k := Z.max (ilog2 x - 52) (-1074) in
  inject_Z (rne (x / pow2 k)) * pow2 k.

(** Round to nearest, ties to even, with the exponent unbounded above; the
    result is in lowest terms.  A result of magnitude [2^1024] or more is
    an overflow, see [is_finite]. *)
Definition round (x : Q) : Q :=
  let y := Qred x in
  match Qnum y with
  | Z0 => 0
  | Zpos _ => Qred (round_pos y)
  | Zneg _ => Qred (- round_pos (- y))
  end.

Definition is_finite (x : Q) : bool := negb (Qle_bool (pow2 1024) (Qabs x)).

(** The Number of an integer, of a product and of a quotient. *)
Definition of_Z (n : Z) : Q := round (inject_Z n).
Definition mul (a b : Q) : Q := round (a * b).
Definition div (a b : Q) : Q := round (a / b).

End F64.

(** ** JavaScript values that JSON can carry *)

Inductive JsValue : Type :=
| JUndefined
| JNull
| JBool (b : bool)
| JNum (q : Q)
| JInf (negative : bool)
| JStr (s : jsstring)
| JArr (xs : list JsValue)
| JObj (ps : list (jsstring * JsValue)).

Inductive JsError : Type :=
| TypeError
| SyntaxError
| D1_TYPE_ERROR
| D1_CONSTRAINT
| OtherError (msg : jsstring).

Inductive Result (A : Type) : Type :=
| Ok (a : A)
| Throw (e : JsError).

Arguments Ok {A} a.
Arguments Throw {A} e.

(** Own properties of an object, in insertion order. *)
Fixpoint lookup (k : jsstring) (ps : list (jsstring * JsValue)) : option JsValue :=
  match ps with
  | [] => None
  | (k', v) :: r => if jseqb k k' then Some v else lookup k r
  end.

(** [obj[k] = v] on an own data property: an existing key keeps its place. *)
Fixpoint set_prop (k : jsstring) (v : JsValue) (ps : list (jsstring * JsValue))
  : list (jsstring * JsValue) :=
  match ps with
  | [] => [(k, v)]
  | (k', v') :: r => if jseqb k k' then (k', v) :: r else (k', v') :: set_prop k v r
  end.

(** ToBoolean. *)
Definition truthy (v : JsValue) : bool :=
  match v with
  | JUndefined | JNull => false
  | JBool b => b
  | JNum q => negb (Qeq_bool q 0)
  | JInf _ => true
  | JStr s => match s with [] => false | _ => true end
  | JArr _ | JObj _ => true
  end.

(** [v.k] for the property names the worker reads ([text], [source],
    [timestamp], [theme], [urgency], [severity], [sentiment]): none of them
    is defined on a prototype, so only an object's own property answers;
    reading a property of [null] or [undefined] throws. *)
Definition get_prop (v : JsValue) (k : jsstring) : Result JsValue :=
  match v with
  | JUndefined | JNull => Throw TypeError
  | JObj ps => match lookup k ps with Some x => Ok x | None => Ok JUndefined end
  | _ => Ok JUndefined
  end.

(** ** [JSON.parse] *)

Module Json.

Definition is_ws (c : N) : bool :=
  ((c =? 32) || (c =? 9) || (c =? 10) || (c =? 13))%N.

Fixpoint skip_ws (s : jsstring) : jsstring :=
  match s with
  | c :: r => if is_ws c then skip_ws r else s
  | [] => []
  end.

Definition is_digit (c : N) : bool := ((48 <=? c) && (c <=? 57))%N.

Definition hex_val (c : N) : option N :=
  if ((48 <=? c) && (c <=? 57))%N then Some (c - 48)%N
  else if ((65 <=? c) && (c <=? 70))%N then Some (c - 55)%N
  else if ((97 <=? c) && (c <=? 102))%N then Some (c - 87)%N
  else None.

Definition hex4 (a b c d : N) : option N :=
  match hex_val a, hex_val b, hex_val c, hex_val d with
  | Some x, Some y, Some z, Some w => Some (((x * 16 + y) * 16 + z) * 16 + w)%N
  | _, _, _, _ => None
  end.

(** The characters of a string literal after its opening quote, up to and
    including the closing quote. *)
Fixpoint string_body (s : jsstring) : option (jsstring * jsstring) :=
  match s with
  | [] => None
  | 34%N :: r => Some ([], r)
  | 92%N :: 117%N :: a :: b :: c :: d :: r =>
      match hex4 a b c d, string_body r with
      | Some u, Some (t, r') => Some (u :: t, r')
      | _, _ => None
      end
  | 92%N :: e :: r =>
      let unescaped :=
        if (e =? 34)%N then Some 34%N
        else if (e =? 92)%N then Some 92%N
        else if (e =? 47)%N then Some 47%N
        else if (e =? 98)%N then Some 8%N
        else if (e =? 102)%N then Some 12%N
        else if (e =? 110)%N then Some 10%N
        else if (e =? 114)%N then Some 13%N
        else if (e =? 116)%N then Some 9%N
        else None in
      match unescaped, string_body r with
      | Some u, Some (t, r') => Some (u :: t, r')
      | _, _ => None
      end
  | c :: r =>
      if (c <? 32)%N || (c =? 92)%N then None
      else match string_body r with
           | Some (t, r') => Some (c :: t, r')
           | None => None
           end
  end.

Fixpoint digits (s : jsstring) : list N * jsstring :=
  match s with
  | c :: r => if is_digit c
              then let '(ds, r') := digits r in (c :: ds, r')
              else ([], s)
  | [] => ([], [])
  end.

Definition digits_val (ds : list N) : Z :=
  fold_left (fun acc c => (acc * 10 + Z.of_N (c - 48))%Z) ds 0%Z.

Definition pow10 (n : Z) : Q :=
  if (0 <=? n)%Z then inject_Z (10 ^ n) else / inject_Z (10 ^ (- n)).

(** int: [0] or a non-empty run of digits not starting with [0]. *)
Definition int_part (s : jsstring) : option (list N * jsstring) :=
  match digits s with
  | ([], _) => None
  | (48%N :: _ :: _, _) => None
  | (ds, r) => Some (ds, r)
  end.

Definition frac_part (s : jsstring) : option (list N * jsstring) :=
  match s with
  | 46%N :: r =>
      match digits r with
      | ([], _) => None
      | (ds, r') => Some (ds, r')
      end
  | _ => Some ([], s)
  end.

Definition exp_part (s : jsstring) : option (Z * jsstring) :=
  match s with
  | c :: r =>
      if (c =? 101)%N || (c =? 69)%N then
        let '(neg, r1) :=
          match r with
          | 45%N :: r1 => (true, r1)
          | 43%N :: r1 => (false, r1)
          | _ => (false, r)
          end in
        match digits r1 with
        | ([], _) => None
        | (ds, r2) => Some (if neg then (- digits_val ds)%Z else digits_val ds, r2)
        end
      else Some (0%Z, s)
  | [] => Some (0%Z, [])
  end.

(** A number literal: the Number nearest to the decimal, an infinity when
    the decimal is beyond the range of binary64. *)
Definition number (s : jsstring) : option (JsValue * jsstring) :=
  let '(neg, s1) := match s with 45%N :: r => (true, r) | _ => (false, s) end in
  match int_part s1 with
  | None => None
  | Some (ip, s2) =>
      match frac_part s2 with
      | None => None
      | Some (fp, s3) =>
          match exp_part s3 with
          | None => None
          | Some (e, s4) =>
              let mant := inject_Z (digits_val (ip ++ fp)) in
              let v := (mant * pow10 (e - Z.of_nat (List.length fp)))%Q in
              let r := F64.round (if neg then - v else v)%Q in
              Some (if F64.is_finite r then JNum r else JInf neg, s4)
          end
      end
  end.

Fixpoint value (fuel : nat) (s : jsstring) {struct fuel} : option (JsValue * jsstring) :=
  match fuel with
  | O => None
  | S f =>
      match skip_ws s with
      | 123%N :: r =>
          match skip_ws r with
          | 125%N :: r' => Some (JObj [], r')
          | r' => members f r' []
          end
      | 91%N :: r =>
          match skip_ws r with
          | 93%N :: r' => Some (JArr [], r')
          | r' => elements f r' []
          end
      | 34%N :: r =>
          match string_body r with
          | Some (t, r') => Some (JStr t, r')
          | None => None
          end
      | 116%N :: 114%N :: 117%N :: 101%N :: r => Some (JBool true, r)
      | 102%N :: 97%N :: 108%N :: 115%N :: 101%N :: r => Some (JBool false, r)
      | 110%N :: 117%N :: 108%N :: 108%N :: r => Some (JNull, r)
      | s' =>
          number s'
      end
  end
with elements (fuel : nat) (s : jsstring) (acc : list JsValue) {struct fuel}
  : option (JsValue * jsstring) :=
  match fuel with
  | O => None
  | S f =>
      match value f s with
      | None => None
      | Some (v, r) =>
          match skip_ws r with
          | 44%N :: r' => elements f r' (acc ++ [v])
          | 93%N :: r' => Some (JArr (acc ++ [v]), r')
          | _ => None
          end
      end
  end
with members (fuel : nat) (s : jsstring) (acc : list (jsstring * JsValue)) {struct fuel}
  : option (JsValue * jsstring) :=
  match fuel with
  | O => None
  | S f =>
      match skip_ws s with
      | 34%N :: r =>
          match string_body r with
          | None => None
          | Some (k, r1) =>
              match skip_ws r1 with
              | 58%N :: r2 =>
                  match value f r2 with
                  | None => None
                  | Some (v, r3) =>
                      match skip_ws r3 with
                      | 44%N :: r4 => members f r4 (set_prop k v acc)
                      | 125%N :: r4 => Some (JObj (set_prop k v acc), r4)
                      | _ => None
                      end
                  end
              | _ => None
              end
          end
      | _ => None
      end
  end.

(** [JSON.parse(s)]: [None] stands for the SyntaxError it throws.  Every
    recursive call consumes input, so twice the length is fuel enough. *)
Definition parse (s : jsstring) : option JsValue :=
  match value (2 * List.length s + 2) s with
  | Some (v, r) => match skip_ws r with [] => Some v | _ => None end
  | None => None
  end.

End Json.

(** ** The feedback table of the D1 store *)

Inductive SqlValue : Type :=
| SqlNull
| SqlText (s : jsstring)
| SqlNum (q : Q)
| SqlBlob (bytes : list Z).

Record FeedbackRow : Type := mkRow {
  rowid : Z;
  text : SqlValue;
  source : SqlValue;
  timestamp : SqlValue;
  created_at : SqlValue;
  theme : SqlValue;
  urgency : SqlValue;
  severity : SqlValue;
  sentiment : SqlValue;
  escalated : Z
}.

(** An element of an array that D1 takes for a byte array: a number from 0
    up to, not including, 256. *)
Definition is_byte (v : JsValue) : bool :=
  match v with
  | JNum q => Qle_bool 0 q && negb (Qle_bool 256 q)
  | _ => false
  end.

(** The byte a number becomes in a [Uint8Array]. *)
Definition to_byte (v : JsValue) : Z :=
  match v with
  | JNum q => Qfloor q
  | _ => 0%Z
  end.

(** What [stmt.bind(v)] hands to SQLite: D1 accepts null, numbers, strings,
    booleans (as 1 and 0) and arrays of bytes (as a BLOB), and rejects
    [undefined], every other array and every object with a D1_TYPE_ERROR.
    An infinity is not a JSON number and reaches the table as NULL.  A
    value is stored as it was bound. *)
Definition bind_value (v : JsValue) : Result SqlValue :=
  match v with
  | JNull => Ok SqlNull
  | JBool b => Ok (SqlNum (if b then 1 else 0))
  | JNum q => Ok (SqlNum q)
  | JInf _ => Ok SqlNull
  | JStr s => Ok (SqlText s)
  | JArr xs => if forallb is_byte xs then Ok (SqlBlob (map to_byte xs))
               else Throw D1_TYPE_ERROR
  | JUndefined | JObj _ => Throw D1_TYPE_ERROR
  end.

(** A column value as the D1 client returns it. *)
Definition sql_to_js (v : SqlValue) : JsValue :=
  match v with
  | SqlNull => JNull
  | SqlText s => JStr s
  | SqlNum q => JNum q
  | SqlBlob bytes => JArr (map (fun b => JNum (inject_Z b)) bytes)
  end.

(** [col = 'lit'] as a condition, and [CASE col WHEN 'lit']: NULL and
    numbers never match a text literal. *)
Definition sql_is_text (v : SqlValue) (lit : jsstring) : bool :=
  match v with
  | SqlText s => jseqb s lit
  | _ => false
  end.

Fixpoint bytes_eqb (a b : list Z) : bool :=
  match a, b with
  | [], [] => true
  | x :: a', y :: b' => Z.eqb x y && bytes_eqb a' b'
  | _, _ => false
  end.

(** Whether two values fall in the same GROUP BY group (NULLs group
    together, numbers by value). *)
Definition sql_same (a b : SqlValue) : bool :=
  match a, b with
  | SqlNull, SqlNull => true
  | SqlText s, SqlText t => jseqb s t
  | SqlNum p, SqlNum q => Qeq_bool p q
  | SqlBlob x, SqlBlob y => bytes_eqb x y
  | _, _ => false
  end.

(** ** The environment and the effects of a request *)

(** What [ai.response] holds once [env.AI.run] has resolved to an object:
    a falsy value (absent, empty, null, 0, false), a string, or another
    truthy value, given by what [String] makes of it. *)
Inductive AiField : Type :=
| FieldFalsy
| FieldText (s : jsstring)
| FieldOther (to_string : Result jsstring).

(** What [env.AI.run] resolves to. *)
Inductive AiOutput : Type :=
| AiNullish
| AiObject (response : AiField).

(** The bindings of the worker.  [AI] is absent when the capability is not
    configured; [run k model prompt] is the outcome of the [k]-th call.
    [DB_not_null] is the part of the table's schema an insert depends on:
    the schema is not among the sources, so which columns are declared
    NOT NULL is left to the environment.  [Date_now k] is
    [new Date().toISOString()] at the [k]-th reading of the clock. *)
Record Env : Type := mkEnv {
  AI : option (nat -> jsstring -> jsstring -> Result AiOutput);
  DB_not_null : jsstring -> bool;
  Date_now : nat -> jsstring
}.

(** What a request changes: the table behind [env.DB], the prompts sent to
    the classification capability so far, and the clock readings. *)
Record World : Type := mkWorld {
  db : list FeedbackRow;
  ai_calls : list jsstring;
  clock : nat
}.

Definition M (A : Type) : Type := World -> Result A * World.

Definition ret {A} (a : A) : M A := fun w => (Ok a, w).

Definition throw {A} (e : JsError) : M A := fun w => (Throw e, w).

Definition bind {A B} (m : M A) (k : A -> M B) : M B :=
  fun w =>
    match m w with
    | (Ok a, w') => k a w'
    | (Throw e, w') => (Throw e, w')
    end.

(** A call that throws or returns without touching the world. *)
Definition lift {A} (r : Result A) : M A := fun w => (r, w).

(** [try { m } catch { h }]. *)
Definition try_catch {A} (m : M A) (h : M A) : M A :=
  fun w =>
    match m w with
    | (Ok a, w') => (Ok a, w')
    | (Throw _, w') => h w'
    end.

Declare Scope js_scope.
Delimit Scope js_scope with js.
Notation "x <- m ;; k" := (bind m (fun x => k))
  (at level 61, m at next level, right associativity) : js_scope.
Notation "m ;;; k" := (bind m (fun _ => k))
  (at level 61, right associativity) : js_scope.
Local Open Scope js_scope.

(** [await env.AI.run(model, { messages: [{ role: "user", content: prompt }] })]
    on an available binding. *)
Definition AI_run (run : nat -> jsstring -> jsstring -> Result AiOutput)
  (model prompt : jsstring) : M AiOutput :=
  fun w =>
    (run (List.length (ai_calls w)) model prompt,
     mkWorld (db w) (ai_calls w ++ [prompt]) (clock w)).

(** [new Date().toISOString()]. *)
Definition Date_toISOString (env : Env) : M jsstring :=
  fun w => (Ok (Date_now env (clock w)), mkWorld (db w) (ai_calls w) (S (clock w))).

(** A NOT NULL column refuses NULL. *)
Definition check_column (env : Env) (column : jsstring) (v : SqlValue)
  : Result SqlValue :=
  match v with
  | SqlNull => if DB_not_null env column then Throw D1_CONSTRAINT else Ok v
  | _ => Ok v
  end.

(** The INSERT of both the ingestion and the seed handler:
    [env.DB.prepare(INSERT INTO feedback (text, source, timestamp,
    created_at, theme, urgency, severity, sentiment, escalated) VALUES
    (?, ?, ?, ?, ?, ?, ?, ?, 0)).bind(...).run()].  [bind] checks the types
    of all eight values, [run] checks the constraints and appends the row.
    The row id is assigned by the table; no row is ever deleted, so it is
    the row count plus one. *)
Definition DB_insert_feedback (env : Env)
  (v_text v_source v_timestamp v_created_at
   v_theme v_urgency v_severity v_sentiment : JsValue) : M unit :=
  b1 <- lift (bind_value v_text) ;;
  b2 <- lift (bind_value v_source) ;;
  b3 <- lift (bind_value v_timestamp) ;;
  b4 <- lift (bind_value v_created_at) ;;
  b5 <- lift (bind_value v_theme) ;;
  b6 <- lift (bind_value v_urgency) ;;
  b7 <- lift (bind_value v_severity) ;;
  b8 <- lift (bind_value v_sentiment) ;;
  c1 <- lift (check_column env (str "text") b1) ;;
  c2 <- lift (check_column env (str "source") b2) ;;
  c3 <- lift (check_column env (str "timestamp") b3) ;;
  c4 <- lift (check_column env (str "created_at") b4) ;;
  c5 <- lift (check_column env (str "theme") b5) ;;
  c6 <- lift (check_column env (str "urgency") b6) ;;
  c7 <- lift (check_column env (str "severity") b7) ;;
  c8 <- lift (check_column env (str "sentiment") b8) ;;
  fun w =>
    (Ok tt,
     mkWorld (db w ++ [mkRow (Z.of_nat (List.length (db w)) + 1)
                             c1 c2 c3 c4 c5 c6 c7 c8 0])
             (ai_calls w) (clock w)).

(** ** The aggregate queries *)

Definition sum_Z (xs : list Z) : Z := fold_right Z.add 0%Z xs.

(** [SUM(e)] over the rows of the table: NULL when there is no row. *)
Definition sql_sum (xs : list Z) : option Z :=
  match xs with
  | [] => None
  | _ => Some (sum_Z xs)
  end.

(** [CASE WHEN c THEN 1 ELSE 0 END]. *)
Definition case_1_0 (c : bool) : Z := if c then 1%Z else 0%Z.

(** The row of the summary query; [None] is a NULL column. *)
Record Stats : Type := mkStats {
  total : Z;
  high_urgency : option Z;
  critical : option Z;
  negative : option Z
}.

(** [SELECT COUNT( * ) as total,
     SUM(CASE WHEN urgency='High' THEN 1 ELSE 0 END) as high_urgency,
     SUM(CASE WHEN severity='Critical' THEN 1 ELSE 0 END) as critical,
     SUM(CASE WHEN sentiment='Negative' THEN 1 ELSE 0 END) as negative
     FROM feedback], read with [first()]. *)
Definition aggregateTotals (rows : list FeedbackRow) : Stats :=
  {| total := Z.of_nat (List.length rows);
     high_urgency :=
       sql_sum (map (fun r => case_1_0 (sql_is_text (urgency r) (str "High"))) rows);
     critical :=
       sql_sum (map (fun r => case_1_0 (sql_is_text (severity r) (str "Critical"))) rows);
     negative :=
       sql_sum (map (fun r => case_1_0 (sql_is_text (sentiment r) (str "Negative"))) rows) |}.

(** [CASE urgency WHEN 'High' THEN 3 WHEN 'Medium' THEN 2 ELSE 1 END]. *)
Definition urgency_weight (v : SqlValue) : Z :=
  if sql_is_text v (str "High") then 3%Z
  else if sql_is_text v (str "Medium") then 2%Z
  else 1%Z.

(** [CASE severity WHEN 'Critical' THEN 3 WHEN 'Moderate' THEN 2 ELSE 1 END]. *)
Definition severity_weight (v : SqlValue) : Z :=
  if sql_is_text v (str "Critical") then 3%Z
  else if sql_is_text v (str "Moderate") then 2%Z
  else 1%Z.

(** The running aggregates of one GROUP BY group. *)
Record Group : Type := mkGroup {
  g_theme : SqlValue;
  g_count : Z;
  g_urgency : Z;
  g_severity : Z
}.

(** One step of the scan: the row joins the group of its theme, or opens a
    new group after the existing ones. *)
Fixpoint group_add (r : FeedbackRow) (gs : list Group) : list Group :=
  match gs with
  | [] => [mkGroup (theme r) 1 (urgency_weight (urgency r)) (severity_weight (severity r))]
  | g :: rest =>
      if sql_same (g_theme g) (theme r)
      then mkGroup (g_theme g) (g_count g + 1)
                   (g_urgency g + urgency_weight (urgency r))
                   (g_severity g + severity_weight (severity r)) :: rest
      else g :: group_add r rest
  end.

Definition group_scan (rows : list FeedbackRow) : list Group :=
  fold_left (fun gs r => group_add r gs) rows [].

(** A row of the by-theme query. *)
Record ThemeRow : Type := mkThemeRow {
  r_theme : SqlValue;
  r_coverage : Z;
  r_avg_urgency : Q;
  r_avg_severity : Q
}.

(** [AVG] is the sum over the count of the group, here as the exact
    quotient; [Binary64.group_row] rounds it as SQLite does. *)
Definition group_row (g : Group) : ThemeRow :=
  {| r_theme := g_theme g;
     r_coverage := g_count g;
     r_avg_urgency := inject_Z (g_urgency g) / inject_Z (g_count g);
     r_avg_severity := inject_Z (g_severity g) / inject_Z (g_count g) |}.

(** [SELECT theme, COUNT( * ) as coverage,
     AVG(CASE urgency WHEN 'High' THEN 3 WHEN 'Medium' THEN 2 ELSE 1 END) as avg_urgency,
     AVG(CASE severity WHEN 'Critical' THEN 3 WHEN 'Moderate' THEN 2 ELSE 1 END) as avg_severity
     FROM feedback GROUP BY theme], read with [all()].  SQL leaves the order
     of the groups open; the scan lists them by first occurrence. *)
Definition aggregateByTheme (rows : list FeedbackRow) : list ThemeRow :=
  map group_row (group_scan rows).

(** ** The handlers of [fetch] *)

Inductive Body : Type :=
| BodyNull
| BodyText (s : jsstring)
| BodyJson (data : JsValue).

(** [new Response(body, { status, headers })]; [BodyJson data] is the body
    [JSON.stringify(data)]. *)
Record Response : Type := mkResponse {
  status : Z;
  headers : list (jsstring * jsstring);
  body : Body
}.

(** The request as the handler reads it: [request.method], the pathname of
    [new URL(request.url)], and what [await request.json()] gives, which
    throws when the body is not valid JSON. *)
Record Request : Type := mkRequest {
  method : jsstring;
  pathname : jsstring;
  request_json : Result JsValue
}.

Definition cors : list (jsstring * jsstring) :=
  [ (str "Access-Control-Allow-Origin", str "*");
    (str "Access-Control-Allow-Methods", str "GET, POST, OPTIONS");
    (str "Access-Control-Allow-Headers", str "Content-Type");
    (str "Content-Type", str "application/json") ].

Definition json (data : JsValue) (status : Z) : Response :=
  mkResponse status cors (BodyJson data).

Definition nl : N := 10%N.

(** The template literal of the prompt, around the text already converted
    to a string. *)
Definition prompt_of (t : jsstring) : jsstring :=
  [nl] ++ str "Classify the following product feedback." ++ [nl; nl]
  ++ quoted t ++ [nl; nl]
  ++ str "Return ONLY valid JSON:" ++ [nl]
  ++ str "{" ++ [nl]
  ++ str "  " ++ quoted (str "theme") ++ str ": "
  ++ quoted (str "Authentication | Performance | UI/UX | Documentation | Bug | Feature Request | Integration | Other")
  ++ str "," ++ [nl]
  ++ str "  " ++ quoted (str "urgency") ++ str ": "
  ++ quoted (str "Low | Medium | High") ++ str "," ++ [nl]
  ++ str "  " ++ quoted (str "severity") ++ str ": "
  ++ quoted (str "Minor | Moderate | Critical") ++ str "," ++ [nl]
  ++ str "  " ++ quoted (str "sentiment") ++ str ": "
  ++ quoted (str "Positive | Neutral | Negative") ++ [nl]
  ++ str "}" ++ [nl].

Definition fallback : JsValue :=
  JObj [ (str "theme", JStr (str "Other"));
         (str "urgency", JStr (str "Medium"));
         (str "severity", JStr (str "Moderate"));
         (str "sentiment", JStr (str "Neutral")) ].

(** [ai.response]. *)
Definition ai_response (ai : AiOutput) : Result AiField :=
  match ai with
  | AiNullish => Throw TypeError
  | AiObject r => Ok r
  end.

(** [String(r || e)], [e] the empty string. *)
Definition String_or_empty (r : AiField) : Result jsstring :=
  match r with
  | FieldFalsy => Ok []
  | FieldText s => Ok s
  | FieldOther c => c
  end.

(** The chain [.replace(/```json/g, e).replace(/```/g, e).trim()], [e] the
    empty string. *)
Definition clean (s : jsstring) : jsstring :=
  trim (replace_all (str "```") [] (replace_all (str "```json") [] s)).

Definition JSON_parse (s : jsstring) : Result JsValue :=
  match Json.parse s with
  | Some v => Ok v
  | None => Throw SyntaxError
  end.

(** *** GET /stats *)

(** ToNumber of a count column: [null] is 0. *)
Definition ToNumber (c : option Z) : Q :=
  match c with
  | Some n => inject_Z n
  | None => 0
  end.

(** [a > b] on Numbers. *)
Definition js_gt (a b : Q) : bool := negb (Qle_bool a b).

Definition stats_summary (stats : Stats) : jsstring :=
  if js_gt (ToNumber (negative stats)) (inject_Z (total stats) / 2)
  then str "User sentiment is trending negative."
  else if js_gt (ToNumber (high_urgency stats)) 0 || js_gt (ToNumber (critical stats)) 0
  then str "Urgent issues detected that may require prioritization."
  else str "Feedback volume is low risk.".

Definition count_to_js (c : option Z) : JsValue :=
  match c with
  | Some n => JNum (inject_Z n)
  | None => JNull
  end.

(** The object [first()] returns for the summary query. *)
Definition stats_to_js (stats : Stats) : list (jsstring * JsValue) :=
  [ (str "total", JNum (inject_Z (total stats)));
    (str "high_urgency", count_to_js (high_urgency stats));
    (str "critical", count_to_js (critical stats));
    (str "negative", count_to_js (negative stats)) ].

Definition stats_handler : M Response :=
  fun w =>
    let stats := aggregateTotals (db w) in
    let summary := stats_summary stats in
    (Ok (json (JObj (stats_to_js stats ++ [(str "summary", JStr summary)])) 200), w).

(** *** GET /clusters *)

(** [Number(x.toFixed(2))]: the multiple of 1/100 nearest to [x], the one
    of larger magnitude when two are equally near. *)
Definition toFixed2 (x : Q) : Q :=
  if js_gt 0 x
  then - (inject_Z (Qfloor (- x * 100 + (1 # 2))) / 100)
  else inject_Z (Qfloor (x * 100 + (1 # 2))) / 100.

Record Cluster : Type := mkCluster {
  c_theme : SqlValue;
  coverage : Z;
  avg_urgency : Q;
  avg_severity : Q;
  priority : Q;
  insight : jsstring;
  recommendation : jsstring
}.

(** [r.theme === "Other"]. *)
Definition theme_is_Other (r : ThemeRow) : bool :=
  sql_is_text (r_theme r) (str "Other").

(** [r.coverage * r.avg_urgency * r.avg_severity], here as the exact
    product; [Binary64.raw_priority] rounds each multiplication. *)
Definition raw_priority (r : ThemeRow) : Q :=
  inject_Z (r_coverage r) * r_avg_urgency r * r_avg_severity r.

(** The function mapped over the rows of the by-theme query. *)
Definition cluster_of (r : ThemeRow) : Cluster :=
  let priority := raw_priority r in
  let '(insight, recommendation) :=
    if theme_is_Other r
    then (str "Large volume of uncategorized feedback suggests taxonomy gaps.",
          str "Refine AI classification prompts or expand feedback categories.")
    else if js_gt priority 20
    then (str "High-impact issue affecting multiple users.",
          str "Prioritize investigation and remediation.")
    else (str "Recurring user feedback detected.",
          str "Monitor and review in upcoming sprint.") in
  {| c_theme := r_theme r;
     coverage := r_coverage r;
     avg_urgency := toFixed2 (r_avg_urgency r);
     avg_severity := toFixed2 (r_avg_severity r);
     priority := toFixed2 priority;
     insight := insight;
     recommendation := recommendation |}.

(** [Array.prototype.sort] with a comparator: the sort is stable, and for a
    consistent comparator its result is the one of a stable insertion sort.
    [cmp x y > 0] places [x] after [y]. *)
Fixpoint insert_by {A} (cmp : A -> A -> Q) (x : A) (l : list A) : list A :=
  match l with
  | [] => [x]
  | y :: r => if js_gt (cmp x y) 0 then y :: insert_by cmp x r else x :: l
  end.

Definition sort_by {A} (cmp : A -> A -> Q) (l : list A) : list A :=
  fold_right (insert_by cmp) [] l.

(** [results.map(...).sort((a, b) => b.priority - a.priority)]. *)
Definition clusters_of (results : list ThemeRow) : list Cluster :=
  sort_by (fun a b => priority b - priority a) (map cluster_of results).

Definition cluster_to_js (c : Cluster) : JsValue :=
  JObj [ (str "theme", sql_to_js (c_theme c));
         (str "coverage", JNum (inject_Z (coverage c)));
         (str "avg_urgency", JNum (avg_urgency c));
         (str "avg_severity", JNum (avg_severity c));
         (str "priority", JNum (priority c));
         (str "insight", JStr (insight c));
         (str "recommendation", JStr (recommendation c)) ].

(** [clusters[0] || null]: a cluster is an object, hence truthy. *)
Definition top_problem (clusters : list Cluster) : JsValue :=
  match clusters with
  | c :: _ => cluster_to_js c
  | [] => JNull
  end.

Definition clusters_handler : M Response :=
  fun w =>
    let results := aggregateByTheme (db w) in
    let clusters := clusters_of results in
    (Ok (json (JObj [ (str "top_problem", top_problem clusters);
                      (str "clusters", JArr (map cluster_to_js clusters)) ]) 200), w).

(** *** GET /clusters in binary64 *)

(** The arithmetic of the cluster handler as the platform carries it out:
    SQLite divides the sum by the count as doubles, JavaScript multiplies
    doubles, and [Number(x.toFixed(2))] is the double nearest to the
    decimal that [toFixed] prints.  The integers of the query become
    Numbers on the way. *)
Module Binary64.

Definition AVG (sum count : Z) : Q := F64.div (F64.of_Z sum) (F64.of_Z count).

Definition group_row (g : Group) : ThemeRow :=
  {| r_theme := g_theme g;
     r_coverage := g_count g;
     r_avg_urgency := AVG (g_urgency g) (g_count g);
     r_avg_severity := AVG (g_severity g) (g_count g) |}.

Definition aggregateByTheme (rows : list FeedbackRow) : list ThemeRow :=
  map group_row (group_scan rows).

(** [r.coverage * r.avg_urgency * r.avg_severity], from left to right. *)
Definition raw_priority (r : ThemeRow) : Q :=
  F64.mul (F64.mul (F64.of_Z (r_coverage r)) (r_avg_urgency r)) (r_avg_severity r).

(** [Number(x.toFixed(2))]; [decimal2 x] is what [x.toFixed(2)] prints. *)
Definition decimal2 (x : Q) : Q := toFixed2 x.

Definition Number_toFixed2 (x : Q) : Q := F64.round (decimal2 x).

Definition cluster_of (r : ThemeRow) : Cluster :=
  let priority := raw_priority r in
  let '(insight, recommendation) :=
    if theme_is_Other r
    then (str "Large volume of uncategorized feedback suggests taxonomy gaps.",
          str "Refine AI classification prompts or expand feedback categories.")
    else if js_gt priority 20
    then (str "High-impact issue affecting multiple users.",
          str "Prioritize investigation and remediation.")
    else (str "Recurring user feedback detected.",
          str "Monitor and review in upcoming sprint.") in
  {| c_theme := r_theme r;
     coverage := r_coverage r;
     avg_urgency := Number_toFixed2 (r_avg_urgency r);
     avg_severity := Number_toFixed2 (r_avg_severity r);
     priority := Number_toFixed2 priority;
     insight := insight;
     recommendation := recommendation |}.

End Binary64.

(** *** The classifier adapter, POST /feedback, GET /seed and the router *)

Section Platform.

(** Number::toString, the decimal rendering of a Number.  Only a feedback
    text that is itself a number reaches it. *)
Variable Number_toString : Q -> jsstring.

(** ToString on a value parsed from JSON.  An object has no callable own
    property: one named [toString] shadows the inherited method and the
    conversion throws; an array joins its elements, [null] and [undefined]
    as the empty string. *)
Fixpoint ToString (v : JsValue) : Result jsstring :=
  match v with
  | JUndefined => Ok (str "undefined")
  | JNull => Ok (str "null")
  | JBool b => Ok (if b then str "true" else str "false")
  | JNum q => Ok (Number_toString q)
  | JInf negative => Ok (if negative then str "-Infinity" else str "Infinity")
  | JStr s => Ok s
  | JArr xs =>
      (fix join (first : bool) (l : list JsValue) : Result jsstring :=
         match l with
         | [] => Ok []
         | x :: r =>
             match (match x with
                    | JUndefined | JNull => Ok []
                    | _ => ToString x
                    end), join false r with
             | Ok s, Ok t => Ok ((if first then [] else [44%N]) ++ s ++ t)
             | Throw e, _ => Throw e
             | _, Throw e => Throw e
             end
         end) true xs
  | JObj ps =>
      match lookup (str "toString") ps with
      | Some _ => Throw TypeError
      | None => Ok (str "[object Object]")
      end
  end.

Variable env : Env.

(** [tagWithAI(text)]: the prompt is built before the [try] block. *)
Definition tagWithAI (text : JsValue) : M JsValue :=
  match AI env with
  | None => ret fallback
  | Some run =>
      t <- lift (ToString text) ;;
      let prompt := prompt_of t in
      try_catch
        (ai <- AI_run run (str "@cf/meta/llama-3-8b-instruct") prompt ;;
         r <- lift (ai_response ai) ;;
         s <- lift (String_or_empty r) ;;
         let cleaned := clean s in
         lift (JSON_parse cleaned))
        (ret fallback)
  end.

(** POST /feedback. *)
Definition feedback_handler (request : Request) : M Response :=
  body <- lift (request_json request) ;;
  let body' := if truthy body then body else JObj [] in
  text <- lift (get_prop body' (str "text")) ;;
  source <- lift (get_prop body' (str "source")) ;;
  timestamp <- lift (get_prop body' (str "timestamp")) ;;
  if negb (truthy text) || negb (truthy source) || negb (truthy timestamp)
  then ret (json (JObj [(str "error", JStr (str "text, source, timestamp required"))]) 400)
  else
    tags <- tagWithAI text ;;
    now <- Date_toISOString env ;;
    theme <- lift (get_prop tags (str "theme")) ;;
    urgency <- lift (get_prop tags (str "urgency")) ;;
    severity <- lift (get_prop tags (str "severity")) ;;
    sentiment <- lift (get_prop tags (str "sentiment")) ;;
    DB_insert_feedback env text source timestamp (JStr now)
                       theme urgency severity sentiment ;;;
    ret (json (JObj [(str "status", JStr (str "stored")); (str "tags", tags)]) 200).

(** GET /seed. *)
Definition samples : list (jsstring * jsstring) :=
  [ (str "Login fails for enterprise users", str "GitHub");
    (str "SSO integration breaks randomly", str "Support");
    (str "Dashboard takes more than 10 seconds to load", str "Discord");
    (str "API latency is very high during peak hours", str "GitHub");
    (str "Documentation is outdated for v2 APIs", str "Email");
    (str "Navigation is confusing in settings screen", str "Twitter");
    (str "Need export to CSV feature", str "Support");
    (str "Bug in report generation", str "Support") ].

(** The body of the [for (const s of samples)] loop. *)
Definition seed_one (s : jsstring * jsstring) : M unit :=
  tags <- tagWithAI (JStr (fst s)) ;;
  ts <- Date_toISOString env ;;
  theme <- lift (get_prop tags (str "theme")) ;;
  urgency <- lift (get_prop tags (str "urgency")) ;;
  severity <- lift (get_prop tags (str "severity")) ;;
  sentiment <- lift (get_prop tags (str "sentiment")) ;;
  DB_insert_feedback env (JStr (fst s)) (JStr (snd s)) (JStr ts) (JStr ts)
                     theme urgency severity sentiment.

Fixpoint for_each {A} (f : A -> M unit) (l : list A) : M unit :=
  match l with
  | [] => ret tt
  | x :: r => f x ;;; for_each f r
  end.

Definition seed_handler : M Response :=
  for_each seed_one samples ;;;
  ret (json (JObj [ (str "status", JStr (str "seeded"));
                    (str "count", JNum (inject_Z (Z.of_nat (List.length samples)))) ]) 200).

(** [fetch(request, env)]. *)
Definition fetch (request : Request) : M Response :=
  if jseqb (method request) (str "OPTIONS")
  then ret (mkResponse 200 cors BodyNull)
  else if jseqb (pathname request) (str "/") && jseqb (method request) (str "GET")
  then ret (mkResponse 200 [(str "Access-Control-Allow-Origin", str "*")]
                       (BodyText (str "Product Signal Engine running")))
  else if jseqb (pathname request) (str "/feedback") && jseqb (method request) (str "POST")
  then feedback_handler request
  else if jseqb (pathname request) (str "/stats") && jseqb (method request) (str "GET")
  then stats_handler
  else if jseqb (pathname request) (str "/clusters") && jseqb (method request) (str "GET")
  then clusters_handler
  else if jseqb (pathname request) (str "/seed") && jseqb (method request) (str "GET")
  then seed_handler
  else ret (mkResponse 404 cors (BodyText (str "Not found"))).

End Platform.

(** ** Notions the properties are stated with *)

(** The mean of a list of weights. *)
Definition mean (xs : list Z) : Q :=
  inject_Z (sum_Z xs) / inject_Z (Z.of_nat (List.length xs)).

(** The rows of the table that belong to the theme [t]. *)
Definition rows_of_theme (t : SqlValue) (rows : list FeedbackRow) : list FeedbackRow :=
  filter (fun x => sql_same t (theme x)) rows.

(** [y] is [x] rounded to 2 decimal places. *)
Definition rounded2 (y x : Q) : Prop :=
  (exists n : Z, y == inject_Z n / 100) /\ Qabs (y - x) <= 1 # 200.

(** The value the ingestion handler reads for the field [k] of a parsed
    body: [undefined] when the body is not an object or lacks the field. *)
Definition body_field (body : JsValue) (k : jsstring) : JsValue :=
  match body with
  | JObj ps => match lookup k ps with Some v => v | None => JUndefined end
  | _ => JUndefined
  end.


(** The row carries the fallback tag set. *)
Definition has_fallback_tags (row : FeedbackRow) : Prop :=
  theme row = SqlText (str "Other") /\ urgency row = SqlText (str "Medium")
  /\ severity row = SqlText (str "Moderate") /\ sentiment row = SqlText (str "Neutral").

(** What the [try] block of the adapter makes of a resolved or rejected
    call: the parsed value, or nothing when any step throws. *)
Definition parsed_reply (reply : Result AiOutput) : option JsValue :=
  match reply with
  | Ok (AiObject r) =>
      match String_or_empty r with
      | Ok s => Json.parse (clean s)
      | Throw _ => None
      end
  | Ok AiNullish | Throw _ => None
  end.

(** The column [c] of a row holds the field [k] of [tags] as bound. *)
Definition stored_field (tags : JsValue) (k : jsstring) (c : SqlValue) : Prop :=
  exists v, get_prop tags k = Ok v /\ bind_value v = Ok c.


(** The aggregates of a group are those of the rows of its theme. *)
Definition group_ok (rows : list FeedbackRow) (g : Group) : Prop :=
  rows_of_theme (g_theme g) rows <> []
  /\ g_count g = Z.of_nat (List.length (rows_of_theme (g_theme g) rows))
  /\ g_urgency g
     = sum_Z (map (fun x => urgency_weight (urgency x)) (rows_of_theme (g_theme g) rows))
  /\ g_severity g
     = sum_Z (map (fun x => severity_weight (severity x)) (rows_of_theme (g_theme g) rows)).

(** No two groups share a theme. *)
Definition distinct (gs : list Group) : Prop :=
  ForallOrdPairs (fun g g' => sql_same (g_theme g) (g_theme g') = false) gs.

(** Every row scanned so far has its group. *)
Definition covers (rows : list FeedbackRow) (gs : list Group) : Prop :=
  forall y, In y rows -> exists g, In g gs /\ sql_same (g_theme g) (theme y) = true.


(** ** Sample inputs *)

Definition sample_feedback (i : Z) (th ur se sn : string) : FeedbackRow :=
  mkRow i (SqlText (str "Login fails")) (SqlText (str "GitHub"))
        (SqlText (str "2024-01-01T00:00:00.000Z")) (SqlText (str "2024-01-01T00:00:00.000Z"))
        (SqlText (str th)) (SqlText (str ur)) (SqlText (str se)) (SqlText (str sn)) 0.

Definition sample_rows : list FeedbackRow :=
  [ sample_feedback 1 "Bug" "High" "Critical" "Negative";
    sample_feedback 2 "Other" "Low" "Minor" "Neutral";
    sample_feedback 3 "Bug" "Medium" "Critical" "Negative" ].

(** The row of the by-theme query for the theme Bug of [sample_rows]. *)
Definition sample_theme_row : ThemeRow :=
  group_row (mkGroup (SqlText (str "Bug")) 2 5 6).

(** The same row with the means as binary64 computes them. *)
Definition sample_theme_row64 : ThemeRow :=
  Binary64.group_row (mkGroup (SqlText (str "Bug")) 2 5 6).

(** Forty records of one theme, one of them of urgency Medium and the others
    Low: the mean urgency is 41/40. *)
Definition forty_rows : list FeedbackRow :=
  sample_feedback 1 "Bug" "Medium" "Minor" "Neutral"
  :: repeat (sample_feedback 2 "Bug" "Low" "Minor" "Neutral") 39.

(** A response of the capability inside a code fence: an object whose
    theme is [null]. *)
Definition reply_null_theme : jsstring :=
  str "```json" ++ [nl]
  ++ str "{" ++ quoted (str "theme") ++ str ": null, "
  ++ quoted (str "urgency") ++ str ": " ++ quoted (str "High") ++ str ", "
  ++ quoted (str "severity") ++ str ": " ++ quoted (str "Critical") ++ str ", "
  ++ quoted (str "sentiment") ++ str ": " ++ quoted (str "Negative") ++ str "}" ++ [nl]
  ++ str "```".

(** An environment whose capability always answers [reply_null_theme] and
    whose table declares no NOT NULL column. *)
Definition env_null_theme : Env :=
  mkEnv (Some (fun _ _ _ => Ok (AiObject (FieldText reply_null_theme))))
        (fun _ => false)
        (fun _ => str "2024-01-01T00:00:00.000Z").

(** An environment without classification capability. *)
Definition env_no_AI : Env :=
  mkEnv None (fun _ => false) (fun _ => str "2024-01-01T00:00:00.000Z").

Definition valid_submission : Request :=
  mkRequest (str "POST") (str "/feedback")
            (Ok (JObj [ (str "text", JStr (str "Login fails"));
                        (str "source", JStr (str "GitHub"));
                        (str "timestamp", JStr (str "2024-01-01")) ])).

Definition empty_world : World := mkWorld [] [] 0.

(** ** Notions of the further properties *)

(** The number of rows that satisfy [p]. *)
Definition count_rows (p : FeedbackRow -> bool) (rows : list FeedbackRow) : Z :=
  Z.of_nat (List.length (filter p rows)).

Definition is_high_urgency (r : FeedbackRow) : bool := sql_is_text (urgency r) (str "High").
Definition is_critical (r : FeedbackRow) : bool := sql_is_text (severity r) (str "Critical").
Definition is_negative (r : FeedbackRow) : bool := sql_is_text (sentiment r) (str "Negative").

(** The text and the source of a row, and those a sample is stored with. *)
Definition text_source (row : FeedbackRow) : SqlValue * SqlValue :=
  (text row, source row).

Definition sample_columns (s : jsstring * jsstring) : SqlValue * SqlValue :=
  (SqlText (fst s), SqlText (snd s)).

Definition backtick : N := 96%N.

(** A response wrapped in a json code fence, each marker on its own line. *)
Definition fenced (j : jsstring) : jsstring :=
  str "```json" ++ [nl] ++ j ++ [nl] ++ str "```".

(** The summary sentence [summary] is the one the counts of the store call
    for: more than half of the rows negative; failing that a row of high
    urgency or critical severity; failing that neither. *)
Definition summary_for (rows : list FeedbackRow) (summary : jsstring) : Prop :=
  let n := Z.of_nat (List.length rows) in
  let neg := count_rows is_negative rows in
  let urgent := (0 < count_rows is_high_urgency rows \/ 0 < count_rows is_critical rows)%Z in
  ((n < 2 * neg)%Z -> summary = str "User sentiment is trending negative.")
  /\ ((2 * neg <= n)%Z -> urgent ->
      summary = str "Urgent issues detected that may require prioritization.")
  /\ ((2 * neg <= n)%Z -> ~ urgent -> summary = str "Feedback volume is low risk.").

(** [row] is the record the ingestion handler builds in the world [w] from
    the parsed [body] and the [tags] of the adapter. *)
Definition feedback_row_of (env : Env) (w : World) (body tags : JsValue)
  (row : FeedbackRow) : Prop :=
  rowid row = (Z.of_nat (List.length (db w)) + 1)%Z
  /\ bind_value (body_field body (str "text")) = Ok (text row)
  /\ bind_value (body_field body (str "source")) = Ok (source row)
  /\ bind_value (body_field body (str "timestamp")) = Ok (timestamp row)
  /\ created_at row = SqlText (Date_now env (clock w))
  /\ stored_field tags (str "theme") (theme row)
  /\ stored_field tags (str "urgency") (urgency row)
  /\ stored_field tags (str "severity") (severity row)
  /\ stored_field tags (str "sentiment") (sentiment row)
  /\ escalated row = 0%Z.

(** [row] is the record the seed handler stores for the sample [s]. *)
Definition seeded_from (s : jsstring * jsstring) (row : FeedbackRow) : Prop :=
  text row = SqlText (fst s) /\ source row = SqlText (snd s)
  /\ timestamp row = created_at row /\ timestamp row <> SqlNull
  /\ escalated row = 0%Z.

(** ** Basic facts *)

Lemma jseqb_refl (a : jsstring) : jseqb a a = true.
Proof.
  induction a as [| x a IH]; simpl; [reflexivity |].
  now rewrite N.eqb_refl, IH.
Qed.

Lemma jseqb_eq (a b : jsstring) : jseqb a b = true <-> a = b.
Proof.
  split.
  - revert b; induction a as [| x a IH]; intros [| y b]; simpl; try discriminate; auto.
    intros H. apply andb_true_iff in H. destruct H as [Hx Hr].
    apply N.eqb_eq in Hx. apply IH in Hr. now subst.
  - intros ->. apply jseqb_refl.
Qed.

Lemma sql_is_text_eq (v : SqlValue) (lit : jsstring) :
  sql_is_text v lit = true <-> v = SqlText lit.
Proof.
  destruct v as [| s | q | b]; simpl; try (split; [discriminate | congruence]).
  rewrite jseqb_eq. split; congruence.
Qed.

Lemma js_gt_true (a b : Q) : js_gt a b = true <-> b < a.
Proof.
  unfold js_gt. rewrite negb_true_iff.
  destruct (Qle_bool a b) eqn:E.
  - apply Qle_bool_iff in E. split; [discriminate | intros H; exfalso; lra].
  - split; [intros _ | reflexivity].
    apply Qnot_le_lt. intros H. apply Qle_bool_iff in H. congruence.
Qed.

Lemma js_gt_false (a b : Q) : js_gt a b = false <-> a <= b.
Proof.
  unfold js_gt. rewrite negb_false_iff. apply Qle_bool_iff.
Qed.

(** ** GET /stats *)

(** C8. For every row of the summary query, the summary sentence follows
    the first rule that applies: trending negative when negative exceeds
    half the total; otherwise urgent issues when the count of high urgency
    or of critical rows is positive; otherwise low risk.  A NULL count
    compares as 0, as JavaScript compares [null]. *)
Theorem stats_summary_rules (stats : Stats) :
  (inject_Z (total stats) / 2 < ToNumber (negative stats) ->
   stats_summary stats = str "User sentiment is trending negative.")
  /\ (~ inject_Z (total stats) / 2 < ToNumber (negative stats) ->
      0 < ToNumber (high_urgency stats) \/ 0 < ToNumber (critical stats) ->
      stats_summary stats = str "Urgent issues detected that may require prioritization.")
  /\ (~ inject_Z (total stats) / 2 < ToNumber (negative stats) ->
      ~ (0 < ToNumber (high_urgency stats) \/ 0 < ToNumber (critical stats)) ->
      stats_summary stats = str "Feedback volume is low risk.").
Proof.
  unfold stats_summary.
  destruct (js_gt (ToNumber (negative stats)) (inject_Z (total stats) / 2)) eqn:Eneg.
  - apply js_gt_true in Eneg. repeat split; intros; tauto.
  - apply js_gt_false in Eneg.
    destruct (js_gt (ToNumber (high_urgency stats)) 0) eqn:Ehu;
      destruct (js_gt (ToNumber (critical stats)) 0) eqn:Ecr; simpl;
      rewrite ?js_gt_true, ?js_gt_false in *;
      repeat split; intros; try reflexivity; try tauto; exfalso;
      repeat match goal with
             | H : _ \/ _ |- _ => destruct H
             | H : ~ (_ \/ _) |- _ => apply Decidable.not_or in H; destruct H
             end; lra.
Qed.

(** C3. On a table without rows the summary handler answers with status
    200, total 0 and the low-risk sentence, and the comparison with half
    the total does not fault; the three SUM columns, however, are NULL
    over zero rows and reach the response as [null], not as 0. *)
Theorem stats_on_empty_store Number_toString (env : Env) (body : Result JsValue)
  (calls : list jsstring) (ticks : nat) :
  fetch Number_toString env
        (mkRequest (str "GET") (str "/stats") body)
        (mkWorld [] calls ticks)
  = (Ok (json (JObj [ (str "total", JNum 0);
                      (str "high_urgency", JNull);
                      (str "critical", JNull);
                      (str "negative", JNull);
                      (str "summary", JStr (str "Feedback volume is low risk.")) ])
              200),
     mkWorld [] calls ticks).
Proof. reflexivity. Qed.

(** ** GET /clusters: one cluster *)

Lemma theme_is_Other_eq (r : ThemeRow) :
  theme_is_Other r = true <-> r_theme r = SqlText (str "Other").
Proof. apply sql_is_text_eq. Qed.

(** C6. The insight and the recommendation of a cluster follow the first
    rule that applies: the taxonomy-gap pair when the theme is Other,
    whatever the priority; otherwise the high-impact pair when the priority
    exceeds 20; otherwise the default pair. *)
Theorem insight_rules (r : ThemeRow) :
  (r_theme r = SqlText (str "Other") ->
   insight (cluster_of r)
   = str "Large volume of uncategorized feedback suggests taxonomy gaps."
   /\ recommendation (cluster_of r)
      = str "Refine AI classification prompts or expand feedback categories.")
  /\ (r_theme r <> SqlText (str "Other") -> 20 < raw_priority r ->
      insight (cluster_of r) = str "High-impact issue affecting multiple users."
      /\ recommendation (cluster_of r) = str "Prioritize investigation and remediation.")
  /\ (r_theme r <> SqlText (str "Other") -> ~ 20 < raw_priority r ->
      insight (cluster_of r) = str "Recurring user feedback detected."
      /\ recommendation (cluster_of r) = str "Monitor and review in upcoming sprint.").
Proof.
  unfold cluster_of.
  destruct (theme_is_Other r) eqn:Eo.
  - apply theme_is_Other_eq in Eo. simpl.
    repeat split; intros; try reflexivity; contradiction.
  - assert (Hne : r_theme r <> SqlText (str "Other")).
    { intros H. apply theme_is_Other_eq in H. congruence. }
    destruct (js_gt (raw_priority r) 20) eqn:Ep; simpl.
    + apply js_gt_true in Ep. repeat split; intros; try reflexivity; contradiction.
    + apply js_gt_false in Ep.
      repeat split; intros; try reflexivity; try contradiction; exfalso; lra.
Qed.

(** The first rule wins over the second: a cluster of theme Other keeps the
    taxonomy-gap insight at priority 27. *)
Example insight_Other_high_priority :
  insight (cluster_of (mkThemeRow (SqlText (str "Other")) 3 3 3))
  = str "Large volume of uncategorized feedback suggests taxonomy gaps."
  /\ 20 < raw_priority (mkThemeRow (SqlText (str "Other")) 3 3 3).
Proof. split; reflexivity. Qed.

(** One stored record of theme Bug, urgency High and severity Critical
    gives a cluster of coverage 1, means 3 and priority 9, below the
    threshold of the high-impact rule. *)
Example single_Bug_cluster :
  match clusters_of (aggregateByTheme [sample_feedback 1 "Bug" "High" "Critical" "Negative"]) with
  | [c] =>
      c_theme c = SqlText (str "Bug") /\ coverage c = 1%Z
      /\ avg_urgency c == 3 /\ avg_severity c == 3 /\ priority c == 9
      /\ insight c = str "Recurring user feedback detected."
      /\ recommendation c = str "Monitor and review in upcoming sprint."
  | _ => False
  end.
Proof. vm_compute. repeat split. Qed.

Lemma div100_le (a b : Z) : (a <= b)%Z -> inject_Z a / 100 <= inject_Z b / 100.
Proof.
  intros H. rewrite Zle_Qle in H. unfold Qdiv.
  apply Qmult_le_compat_r; [exact H | discriminate].
Qed.

Lemma Qfloor_nonneg (a : Q) : 0 <= a -> (0 <= Qfloor a)%Z.
Proof. intros H. apply (Qfloor_resp_le 0 a) in H. exact H. Qed.

Lemma toFixed2_mono (x y : Q) : x <= y -> toFixed2 x <= toFixed2 y.
Proof.
  intros Hxy. unfold toFixed2.
  destruct (js_gt 0 x) eqn:Ex; destruct (js_gt 0 y) eqn:Ey;
    rewrite ?js_gt_true, ?js_gt_false in *.
  - apply Qopp_le_compat. apply div100_le. apply Qfloor_resp_le. lra.
  - apply Qle_trans with 0.
    + setoid_replace 0 with (- (inject_Z 0 / 100)) by reflexivity.
      apply Qopp_le_compat. apply div100_le. apply Qfloor_nonneg. lra.
    + setoid_replace 0 with (inject_Z 0 / 100) by reflexivity.
      apply div100_le. apply Qfloor_nonneg. lra.
  - exfalso. lra.
  - apply div100_le. apply Qfloor_resp_le. lra.
Qed.

Lemma half_up_near (a : Q) :
  - (1 # 2) <= inject_Z (Qfloor (a + (1 # 2))) - a <= 1 # 2.
Proof.
  pose proof (Qfloor_le (a + (1 # 2))) as Hlo.
  pose proof (Qlt_floor (a + (1 # 2))) as Hhi.
  rewrite inject_Z_plus in Hhi.
  change (inject_Z 1) with 1 in Hhi.
  split; lra.
Qed.

Lemma div100_scale (n : Q) : n / 100 == n * (1 # 100).
Proof. field. Qed.

Lemma toFixed2_rounded (x : Q) : rounded2 (toFixed2 x) x.
Proof.
  unfold rounded2, toFixed2.
  destruct (js_gt 0 x) eqn:Ex.
  - split.
    + exists (- Qfloor (- x * 100 + (1 # 2)))%Z.
      rewrite inject_Z_opp. field.
    + apply Qabs_Qle_condition.
      pose proof (half_up_near (- x * 100)) as [Hlo Hhi].
      rewrite div100_scale.
      set (n := inject_Z (Qfloor (- x * 100 + (1 # 2)))) in *.
      split; lra.
  - split.
    + exists (Qfloor (x * 100 + (1 # 2))). reflexivity.
    + apply Qabs_Qle_condition.
      pose proof (half_up_near (x * 100)) as [Hlo Hhi].
      rewrite div100_scale.
      set (n := inject_Z (Qfloor (x * 100 + (1 # 2)))) in *.
      split; lra.
Qed.

Lemma raw_priority_mono (c c' : Z) (u u' s s' : Q) (t t' : SqlValue) :
  (0 <= c <= c')%Z -> 0 <= u <= u' -> 0 <= s <= s' ->
  raw_priority (mkThemeRow t c u s) <= raw_priority (mkThemeRow t' c' u' s').
Proof.
  intros [Hc0 Hc] [Hu0 Hu] [Hs0 Hs]. unfold raw_priority; simpl.
  rewrite Zle_Qle in Hc0, Hc. change (inject_Z 0) with 0 in Hc0.
  set (a := inject_Z c) in *. set (a' := inject_Z c') in *.
  assert (H1 : a * u <= a' * u') by nra.
  assert (H0 : 0 <= a * u) by nra.
  nra.
Qed.

(** C9. With non-negative factors, the priority of a cluster, before and
    after rounding, does not decrease when the coverage, the mean urgency
    or the mean severity grows and the other two factors stay as they
    are. *)
Theorem priority_monotone (t : SqlValue) (c c' : Z) (u u' s s' : Q)
  (Hc : (0 <= c)%Z) (Hu : 0 <= u) (Hs : 0 <= s) :
  ((c <= c')%Z ->
   raw_priority (mkThemeRow t c u s) <= raw_priority (mkThemeRow t c' u s)
   /\ priority (cluster_of (mkThemeRow t c u s))
      <= priority (cluster_of (mkThemeRow t c' u s)))
  /\ (u <= u' ->
      raw_priority (mkThemeRow t c u s) <= raw_priority (mkThemeRow t c u' s)
      /\ priority (cluster_of (mkThemeRow t c u s))
         <= priority (cluster_of (mkThemeRow t c u' s)))
  /\ (s <= s' ->
      raw_priority (mkThemeRow t c u s) <= raw_priority (mkThemeRow t c u s')
      /\ priority (cluster_of (mkThemeRow t c u s))
         <= priority (cluster_of (mkThemeRow t c u s'))).
Proof.
  assert (Hpri : forall r, priority (cluster_of r) = toFixed2 (raw_priority r)).
  { intros r. unfold cluster_of.
    destruct (theme_is_Other r); [reflexivity |].
    destruct (js_gt (raw_priority r) 20); reflexivity. }
  repeat split; intros; rewrite ?Hpri; try apply toFixed2_mono;
    apply raw_priority_mono; split; auto; try lia; try lra.
Qed.

Lemma priority_monotone_witness :
  priority (cluster_of (mkThemeRow (SqlText (str "Bug")) 2 (3 # 2) 2))
  <= priority (cluster_of (mkThemeRow (SqlText (str "Bug")) 5 (3 # 2) 2)).
Proof.
  apply (priority_monotone (SqlText (str "Bug")) 2 5 (3 # 2) (3 # 2) 2 2);
    [lia | discriminate | discriminate | lia].
Defined.

(** ** The classifier adapter *)

(** Every way the call or the parse can fail leaves nothing parsed. *)
Lemma parsed_reply_failures :
  (forall e, parsed_reply (Throw e) = None)
  /\ parsed_reply (Ok AiNullish) = None
  /\ (forall e, parsed_reply (Ok (AiObject (FieldOther (Throw e)))) = None)
  /\ (forall r s, String_or_empty r = Ok s -> Json.parse (clean s) = None ->
      parsed_reply (Ok (AiObject r)) = None).
Proof.
  repeat split; try reflexivity.
  intros r s Hs Hp. simpl. now rewrite Hs.
Qed.

Lemma tagWithAI_available Number_toString (env : Env) run (t : jsstring) (w : World) :
  AI env = Some run ->
  tagWithAI Number_toString env (JStr t) w
  = (Ok match parsed_reply (run (List.length (ai_calls w))
                                (str "@cf/meta/llama-3-8b-instruct") (prompt_of t)) with
        | Some tags => tags
        | None => fallback
        end,
     mkWorld (db w) (ai_calls w ++ [prompt_of t]) (clock w)).
Proof.
  intros Hai. unfold tagWithAI. rewrite Hai.
  unfold bind, try_catch, lift, AI_run, ret, JSON_parse; simpl.
  destruct (run _ _ _) as [[| r] | e]; simpl; try reflexivity.
  destruct (String_or_empty r) as [s | e]; simpl; try reflexivity.
  destruct (Json.parse (clean s)); reflexivity.
Qed.

(** C2. For every text and every behaviour of the classification
    capability the adapter returns a value and never throws.  When the
    capability is unavailable it returns the fallback at once, without a
    call; when the call throws or its response cannot be read or parsed it
    returns the same fallback; a response that parses is returned as
    parsed. *)
Theorem tagWithAI_never_raises Number_toString (env : Env) (t : jsstring) (w : World) :
  (exists tags, fst (tagWithAI Number_toString env (JStr t) w) = Ok tags)
  /\ (AI env = None ->
      tagWithAI Number_toString env (JStr t) w = (Ok fallback, w))
  /\ (forall run, AI env = Some run ->
      parsed_reply (run (List.length (ai_calls w))
                        (str "@cf/meta/llama-3-8b-instruct") (prompt_of t)) = None ->
      fst (tagWithAI Number_toString env (JStr t) w) = Ok fallback)
  /\ (forall run tags, AI env = Some run ->
      parsed_reply (run (List.length (ai_calls w))
                        (str "@cf/meta/llama-3-8b-instruct") (prompt_of t)) = Some tags ->
      fst (tagWithAI Number_toString env (JStr t) w) = Ok tags).
Proof.
  split; [| split; [| split]].
  - destruct (AI env) as [run |] eqn:Hai.
    + rewrite (tagWithAI_available _ _ run) by exact Hai. simpl. eauto.
    + unfold tagWithAI. rewrite Hai. simpl. eauto.
  - intros Hai. unfold tagWithAI. now rewrite Hai.
  - intros run Hai Hnone.
    rewrite (tagWithAI_available _ _ run) by exact Hai. simpl. now rewrite Hnone.
  - intros run tags Hai Hsome.
    rewrite (tagWithAI_available _ _ run) by exact Hai. simpl. now rewrite Hsome.
Qed.

(** The contract is about a text that is a string: the template literal of
    the prompt sits before the [try] block, and converting an object with
    an own [toString] property throws there. *)
Example tagWithAI_object_text Number_toString run date (w : World) :
  fst (tagWithAI Number_toString (mkEnv (Some run) (fun _ => false) date)
                 (JObj [(str "toString", JNum 1)]) w)
  = Throw TypeError.
Proof. reflexivity. Qed.

(** ** POST /feedback *)

Lemma fetch_feedback Number_toString (env : Env) (request : Request) :
  method request = str "POST" -> pathname request = str "/feedback" ->
  fetch Number_toString env request = feedback_handler Number_toString env request.
Proof.
  intros Hm Hp. unfold fetch. rewrite Hm, Hp. reflexivity.
Qed.

Lemma destructured_field (body : JsValue) (k : jsstring) :
  get_prop (if truthy body then body else JObj []) k = Ok (body_field body k).
Proof.
  destruct body as [| | b | q | i | s | xs | ps]; simpl; try reflexivity.
  - destruct b; reflexivity.
  - destruct (negb (Qeq_bool q 0)); reflexivity.
  - destruct s; reflexivity.
  - destruct (lookup k ps); reflexivity.
Qed.

(** C5. A POST /feedback whose parsed body lacks one of text, source and
    timestamp, or holds a falsy value for one of them, is answered with
    status 400 and an error body; the store and the log of classification
    calls are left as they were. *)
Theorem feedback_missing_field Number_toString (env : Env) (request : Request)
  (body : JsValue) (w : World)
  (Hmethod : method request = str "POST")
  (Hpath : pathname request = str "/feedback")
  (Hbody : request_json request = Ok body)
  (Hfalsy : truthy (body_field body (str "text")) = false
            \/ truthy (body_field body (str "source")) = false
            \/ truthy (body_field body (str "timestamp")) = false) :
  fetch Number_toString env request w
  = (Ok (json (JObj [(str "error", JStr (str "text, source, timestamp required"))]) 400),
     w).
Proof.
  rewrite fetch_feedback by assumption.
  unfold feedback_handler, bind, lift. rewrite Hbody.
  rewrite !destructured_field.
  destruct Hfalsy as [H | [H | H]]; rewrite H; simpl;
    rewrite ?orb_true_r; reflexivity.
Qed.

Lemma feedback_missing_field_witness :
  fetch (fun _ => [])
        (mkEnv None (fun _ => false) (fun _ => []))
        (mkRequest (str "POST") (str "/feedback")
                   (Ok (JObj [ (str "text", JStr []);
                               (str "source", JStr (str "GitHub")) ])))
        (mkWorld [] [] 0)
  = (Ok (json (JObj [(str "error", JStr (str "text, source, timestamp required"))]) 400),
     mkWorld [] [] 0).
Proof.
  apply (feedback_missing_field (fun _ => []) _ _
           (JObj [ (str "text", JStr []); (str "source", JStr (str "GitHub")) ]));
    [reflexivity | reflexivity | reflexivity | left; reflexivity].
Defined.

(** C10. A POST /feedback whose body is not valid JSON gets no response:
    the error of [request.json()] leaves the handler uncaught, so no 400
    is produced, and the store and the log of classification calls are
    left as they were. *)
Theorem feedback_invalid_json Number_toString (env : Env) (request : Request)
  (e : JsError) (w : World)
  (Hmethod : method request = str "POST")
  (Hpath : pathname request = str "/feedback")
  (Hbody : request_json request = Throw e) :
  fetch Number_toString env request w = (Throw e, w).
Proof.
  rewrite fetch_feedback by assumption.
  unfold feedback_handler, bind, lift. now rewrite Hbody.
Qed.

Lemma feedback_invalid_json_witness :
  fetch (fun _ => [])
        (mkEnv None (fun _ => false) (fun _ => []))
        (mkRequest (str "POST") (str "/feedback") (Throw SyntaxError))
        (mkWorld [] [] 0)
  = (Throw SyntaxError, mkWorld [] [] 0).
Proof.
  apply (feedback_invalid_json (fun _ => []) _ _ SyntaxError);
    reflexivity.
Defined.

(** ** GET /clusters: the sorted list *)

Section Sorting.

Context {A : Type} (key : A -> Q).

(** The comparator [(a, b) => b.key - a.key] and the order it sorts into. *)
Local Abbreviation cmp := (fun a b : A => key b - key a).
Local Abbreviation desc := (fun a b : A => key b <= key a).

Lemma insert_by_perm (x : A) (l : list A) :
  Permutation (x :: l) (insert_by cmp x l).
Proof.
  induction l as [| y r IH]; simpl; [reflexivity |].
  destruct (js_gt (cmp x y) 0); [| reflexivity].
  rewrite perm_swap. now apply perm_skip.
Qed.

Lemma sort_by_perm (l : list A) : Permutation l (sort_by cmp l).
Proof.
  induction l as [| x l IH]; simpl; [reflexivity |].
  rewrite <- insert_by_perm. now apply perm_skip.
Qed.



End Sorting.


Lemma group_scan_snoc (rows : list FeedbackRow) (x : FeedbackRow) :
  group_scan (rows ++ [x]) = group_add x (group_scan rows).
Proof. unfold group_scan. now rewrite fold_left_app. Qed.





(** ** The by-theme aggregation *)

Lemma bytes_eqb_eq (a b : list Z) : bytes_eqb a b = true <-> a = b.
Proof.
  split.
  - revert b; induction a as [| x a IH]; intros [| y b]; simpl; try discriminate; auto.
    intros H. apply andb_true_iff in H. destruct H as [Hx Hr].
    apply Z.eqb_eq in Hx. apply IH in Hr. now subst.
  - intros <-. induction a as [| x a IH]; simpl; [reflexivity |].
    now rewrite Z.eqb_refl, IH.
Qed.

Lemma sql_same_refl (a : SqlValue) : sql_same a a = true.
Proof.
  destruct a as [| s | q | x]; simpl;
    [reflexivity | apply jseqb_refl | apply Qeq_bool_refl | now apply bytes_eqb_eq].
Qed.

Lemma sql_same_sym (a b : SqlValue) : sql_same a b = true -> sql_same b a = true.
Proof.
  destruct a as [| s | p | x], b as [| t | q | y]; simpl; try discriminate; auto.
  - rewrite !jseqb_eq. congruence.
  - apply Qeq_bool_sym.
  - rewrite !bytes_eqb_eq. congruence.
Qed.

Lemma sql_same_trans (a b c : SqlValue) :
  sql_same a b = true -> sql_same b c = true -> sql_same a c = true.
Proof.
  destruct a as [| s | p | x], b as [| t | q | y], c as [| u | r | z]; simpl;
    try discriminate; auto.
  - rewrite !jseqb_eq. congruence.
  - apply Qeq_bool_trans.
  - rewrite !bytes_eqb_eq. congruence.
Qed.

Lemma sum_Z_app (l l' : list Z) : sum_Z (l ++ l') = (sum_Z l + sum_Z l')%Z.
Proof.
  unfold sum_Z. induction l as [| x l IH]; simpl; [reflexivity | lia].
Qed.

Lemma rows_of_theme_snoc (t : SqlValue) (rows : list FeedbackRow) (x : FeedbackRow) :
  rows_of_theme t (rows ++ [x])
  = rows_of_theme t rows ++ (if sql_same t (theme x) then [x] else []).
Proof.
  unfold rows_of_theme. rewrite filter_app. simpl.
  now destruct (sql_same t (theme x)).
Qed.

Section ScanInvariant.

Variable x : FeedbackRow.

Lemma group_ok_keep rows g :
  group_ok rows g -> sql_same (g_theme g) (theme x) = false ->
  group_ok (rows ++ [x]) g.
Proof.
  unfold group_ok. intros H E.
  now rewrite rows_of_theme_snoc, E, app_nil_r.
Qed.

Lemma group_ok_join rows g :
  group_ok rows g -> sql_same (g_theme g) (theme x) = true ->
  group_ok (rows ++ [x])
           (mkGroup (g_theme g) (g_count g + 1)
                    (g_urgency g + urgency_weight (urgency x))
                    (g_severity g + severity_weight (severity x))).
Proof.
  unfold group_ok. simpl. intros (Hne & Hc & Hu & Hs) E.
  rewrite rows_of_theme_snoc, E, !map_app, !sum_Z_app, length_app. simpl.
  repeat split; try lia.
  intros H. apply app_eq_nil in H. destruct H; discriminate.
Qed.

Lemma group_ok_open rows :
  (forall y, In y rows -> sql_same (theme x) (theme y) = false) ->
  group_ok (rows ++ [x])
           (mkGroup (theme x) 1 (urgency_weight (urgency x)) (severity_weight (severity x))).
Proof.
  intros Hfresh. unfold group_ok. simpl.
  assert (Hnone : rows_of_theme (theme x) rows = []).
  { unfold rows_of_theme. induction rows as [| y r IH]; simpl; [reflexivity |].
    rewrite (Hfresh y) by now left.
    apply IH. intros z Hz. apply Hfresh. now right. }
  rewrite rows_of_theme_snoc, Hnone, sql_same_refl. simpl.
  repeat split; try lia. discriminate.
Qed.

Lemma group_add_ok rows gs :
  Forall (group_ok rows) gs -> distinct gs ->
  ((forall g, In g gs -> sql_same (g_theme g) (theme x) = false) ->
   forall y, In y rows -> sql_same (theme x) (theme y) = false) ->
  Forall (group_ok (rows ++ [x])) (group_add x gs).
Proof.
  induction gs as [| g rest IH]; intros Hok Hd Hfresh; simpl.
  - constructor; [| constructor].
    apply group_ok_open. apply Hfresh. intros g [].
  - inversion Hok as [| ? ? Hg Hrest]; subst.
    inversion Hd as [| ? ? Hgr Hdr]; subst.
    destruct (sql_same (g_theme g) (theme x)) eqn:E.
    + constructor; [now apply group_ok_join |].
      rewrite Forall_forall in Hrest, Hgr |- *.
      intros g' Hin. apply group_ok_keep; [now apply Hrest |].
      destruct (sql_same (g_theme g') (theme x)) eqn:E'; [| reflexivity].
      rewrite <- (Hgr g' Hin). symmetry.
      apply sql_same_trans with (theme x); [exact E | now apply sql_same_sym].
    + constructor; [now apply group_ok_keep |].
      apply IH; auto.
      intros Hnone. apply Hfresh. intros g0 [<- | Hin]; auto.
Qed.

Lemma group_add_themes gs g' :
  In g' (group_add x gs) ->
  (exists g0, In g0 gs /\ g_theme g' = g_theme g0) \/ g_theme g' = theme x.
Proof.
  induction gs as [| g rest IH]; simpl.
  - intros [<- | []]. now right.
  - destruct (sql_same (g_theme g) (theme x)).
    + intros [Heq | Hin]; left; [exists g; subst g' | exists g']; simpl; auto.
    + intros [Heq | Hin]; [left; exists g'; auto |].
      destruct (IH Hin) as [(g0 & Hin0 & Heq) | Heq]; [left; exists g0 | right]; auto.
Qed.

Lemma group_add_distinct gs : distinct gs -> distinct (group_add x gs).
Proof.
  unfold distinct. induction gs as [| g rest IH]; intros Hd; simpl.
  - repeat constructor.
  - inversion Hd as [| ? ? Hgr Hdr]; subst.
    destruct (sql_same (g_theme g) (theme x)) eqn:E.
    + constructor; [exact Hgr | exact Hdr].
    + constructor; [| now apply IH].
      rewrite Forall_forall in Hgr |- *. intros g' Hin.
      destruct (group_add_themes _ _ Hin) as [(g0 & Hin0 & Heq) | Heq];
        rewrite Heq; auto.
Qed.

Lemma group_add_covers_old gs t :
  (exists g, In g gs /\ sql_same (g_theme g) t = true) ->
  exists g, In g (group_add x gs) /\ sql_same (g_theme g) t = true.
Proof.
  induction gs as [| g rest IH]; intros (g0 & Hin & Hs); [destruct Hin |].
  simpl. destruct (sql_same (g_theme g) (theme x)).
  - destruct Hin as [Heq | Hin].
    + eexists; split; [left; reflexivity |]. simpl. now subst g.
    + exists g0. split; [now right | exact Hs].
  - destruct Hin as [<- | Hin].
    + exists g. split; [now left | exact Hs].
    + destruct IH as (g1 & Hin1 & Hs1); [now exists g0 |].
      exists g1. split; [now right | exact Hs1].
Qed.

Lemma group_add_covers_new gs :
  exists g, In g (group_add x gs) /\ sql_same (g_theme g) (theme x) = true.
Proof.
  induction gs as [| g rest IH]; simpl.
  - eexists; split; [left; reflexivity | apply sql_same_refl].
  - destruct (sql_same (g_theme g) (theme x)) eqn:E.
    + eexists; split; [left; reflexivity | exact E].
    + destruct IH as (g1 & Hin1 & Hs1). exists g1. split; [now right | exact Hs1].
Qed.

End ScanInvariant.

Lemma group_scan_invariant (rows : list FeedbackRow) :
  Forall (group_ok rows) (group_scan rows)
  /\ distinct (group_scan rows)
  /\ covers rows (group_scan rows).
Proof.
  induction rows as [| x rows (Hok & Hd & Hc)] using rev_ind.
  - repeat split; [constructor | constructor | intros y []].
  - rewrite group_scan_snoc. repeat split.
    + apply group_add_ok; auto.
      intros Hnone y Hy.
      destruct (Hc y Hy) as (g & Hin & Hs).
      destruct (sql_same (theme x) (theme y)) eqn:E; [| reflexivity].
      rewrite <- (Hnone g Hin). symmetry.
      apply sql_same_trans with (theme y); [exact Hs | now apply sql_same_sym].
    + now apply group_add_distinct.
    + intros y Hy. apply in_app_or in Hy. destruct Hy as [Hy | [<- | []]].
      * apply group_add_covers_old. now apply Hc.
      * apply group_add_covers_new.
Qed.

Lemma weight_cases (hi mid : jsstring) (v : SqlValue) :
  let w := if sql_is_text v hi then 3%Z else if sql_is_text v mid then 2%Z else 1%Z in
  (v = SqlText hi -> w = 3%Z)
  /\ (v <> SqlText hi -> v = SqlText mid -> w = 2%Z)
  /\ (v <> SqlText hi -> v <> SqlText mid -> w = 1%Z).
Proof.
  simpl.
  destruct (sql_is_text v hi) eqn:Eh; [apply sql_is_text_eq in Eh |];
    [repeat split; intros; try reflexivity; contradiction |].
  assert (Hh : v <> SqlText hi) by (intros H; apply sql_is_text_eq in H; congruence).
  destruct (sql_is_text v mid) eqn:Em.
  - apply sql_is_text_eq in Em. repeat split; intros; try reflexivity; contradiction.
  - assert (Hm : v <> SqlText mid) by (intros H; apply sql_is_text_eq in H; congruence).
    repeat split; intros; try reflexivity; contradiction.
Qed.

Lemma cluster_of_fields (r : ThemeRow) :
  c_theme (cluster_of r) = r_theme r
  /\ coverage (cluster_of r) = r_coverage r
  /\ avg_urgency (cluster_of r) = toFixed2 (r_avg_urgency r)
  /\ avg_severity (cluster_of r) = toFixed2 (r_avg_severity r)
  /\ priority (cluster_of r) = toFixed2 (raw_priority r).
Proof.
  unfold cluster_of.
  destruct (theme_is_Other r); [repeat split |].
  destruct (js_gt (raw_priority r) 20); repeat split.
Qed.



(** ** What the ingestion and the seed path store *)


Lemma check_column_ok (env : Env) (k : jsstring) (b c : SqlValue) :
  check_column env k b = Ok c -> c = b.
Proof.
  unfold check_column. destruct b; [destruct (DB_not_null env k) |..]; congruence.
Qed.











(** A number beyond the range of binary64 parses to an infinity, which
    reaches the table as NULL; an array of bytes, the empty one included, is
    bound as a BLOB. *)
Example unusual_values_bound :
  Json.parse (str "1e400") = Some (JInf false)
  /\ bind_value (JInf false) = Ok SqlNull
  /\ bind_value (JArr []) = Ok (SqlBlob [])
  /\ bind_value (JArr [JNum 7; JNum 255]) = Ok (SqlBlob [7%Z; 255%Z])
  /\ bind_value (JArr [JNum 256]) = Throw D1_TYPE_ERROR.
Proof. vm_compute. repeat split. Qed.

(** The adapter passes a parsed response on as it is: for
    [reply_null_theme] it returns an object whose theme is [null]. *)
Example tagWithAI_incomplete_tags :
  fst (tagWithAI (fun _ => []) env_null_theme (JStr (str "Login fails")) empty_world)
  = Ok (JObj [ (str "theme", JNull);
               (str "urgency", JStr (str "High"));
               (str "severity", JStr (str "Critical"));
               (str "sentiment", JStr (str "Negative")) ]).
Proof. vm_compute. reflexivity. Qed.



(** * Further properties of the worker *)

(** ** The router *)

(** X1. Only POST /feedback and GET /seed write: every other request is
    answered, never fails, and leaves the store, the log of classification
    calls and the clock as they were. *)
Theorem fetch_read_only Number_toString (env : Env) (request : Request) (w : World)
  (Hfeedback : ~ (method request = str "POST" /\ pathname request = str "/feedback"))
  (Hseed : ~ (method request = str "GET" /\ pathname request = str "/seed")) :
  exists response, fetch Number_toString env request w = (Ok response, w).
Proof.
  unfold fetch.
  destruct (jseqb (method request) (str "OPTIONS")); [eexists; reflexivity |].
  destruct (jseqb (pathname request) (str "/") && jseqb (method request) (str "GET"));
    [eexists; reflexivity |].
  destruct (jseqb (pathname request) (str "/feedback")
            && jseqb (method request) (str "POST")) eqn:Ef.
  { exfalso. apply andb_true_iff in Ef. destruct Ef as [Hp Hm].
    apply jseqb_eq in Hp, Hm. now apply Hfeedback. }
  destruct (jseqb (pathname request) (str "/stats") && jseqb (method request) (str "GET"));
    [eexists; reflexivity |].
  destruct (jseqb (pathname request) (str "/clusters")
            && jseqb (method request) (str "GET"));
    [eexists; reflexivity |].
  destruct (jseqb (pathname request) (str "/seed") && jseqb (method request) (str "GET")) eqn:Es.
  { exfalso. apply andb_true_iff in Es. destruct Es as [Hp Hm].
    apply jseqb_eq in Hp, Hm. now apply Hseed. }
  eexists; reflexivity.
Qed.

Lemma fetch_read_only_witness :
  exists response,
    fetch (fun _ => []) env_null_theme
          (mkRequest (str "GET") (str "/feedback") (Throw SyntaxError))
          (mkWorld sample_rows [] 0)
    = (Ok response, mkWorld sample_rows [] 0).
Proof.
  apply (fetch_read_only (fun _ => []) env_null_theme
           (mkRequest (str "GET") (str "/feedback") (Throw SyntaxError)));
    simpl; intros [H1 H2]; discriminate.
Defined.

(** X2. A known path asked with another method than its own, OPTIONS apart, is
    not found: the answer is 404 with the text Not found, and nothing is
    read from the body. *)
Theorem fetch_wrong_method Number_toString (env : Env) (request : Request) (w : World)
  (Hoptions : method request <> str "OPTIONS")
  (Hroute : (pathname request = str "/feedback" /\ method request <> str "POST")
            \/ ((pathname request = str "/" \/ pathname request = str "/stats"
                 \/ pathname request = str "/clusters" \/ pathname request = str "/seed")
                /\ method request <> str "GET")) :
  fetch Number_toString env request w
  = (Ok (mkResponse 404 cors (BodyText (str "Not found"))), w).
Proof.
  unfold fetch.
  assert (Ho : jseqb (method request) (str "OPTIONS") = false).
  { destruct (jseqb (method request) (str "OPTIONS")) eqn:E; [| reflexivity].
    apply jseqb_eq in E. contradiction. }
  rewrite Ho.
  destruct Hroute as [[Hp Hm] | [Hp Hm]].
  - assert (Hpost : jseqb (method request) (str "POST") = false).
    { destruct (jseqb (method request) (str "POST")) eqn:E; [| reflexivity].
      apply jseqb_eq in E. contradiction. }
    rewrite Hp, Hpost. reflexivity.
  - assert (Hget : jseqb (method request) (str "GET") = false).
    { destruct (jseqb (method request) (str "GET")) eqn:E; [| reflexivity].
      apply jseqb_eq in E. contradiction. }
    rewrite Hget, !andb_false_r.
    destruct Hp as [-> | [-> | [-> | ->]]]; reflexivity.
Qed.

Lemma fetch_wrong_method_witness :
  fetch (fun _ => []) env_no_AI
        (mkRequest (str "POST") (str "/stats") (Throw SyntaxError)) empty_world
  = (Ok (mkResponse 404 cors (BodyText (str "Not found"))), empty_world).
Proof.
  apply (fetch_wrong_method (fun _ => []) env_no_AI
           (mkRequest (str "POST") (str "/stats") (Throw SyntaxError)));
    [discriminate | right; split; [right; left; reflexivity | discriminate]].
Defined.

(** ** The summary query and its sentence *)

Lemma sum_case_count (p : FeedbackRow -> bool) (rows : list FeedbackRow) :
  sum_Z (map (fun r => case_1_0 (p r)) rows) = count_rows p rows.
Proof.
  unfold count_rows, sum_Z. induction rows as [| x rows IH]; simpl; [reflexivity |].
  rewrite IH. unfold case_1_0. destruct (p x); [| lia].
  change (List.length (x :: filter p rows)) with (S (List.length (filter p rows))). lia.
Qed.

Lemma count_rows_bounds (p : FeedbackRow -> bool) (rows : list FeedbackRow) :
  (0 <= count_rows p rows <= Z.of_nat (List.length rows))%Z.
Proof.
  unfold count_rows. pose proof (filter_length_le p rows). lia.
Qed.

Lemma sql_sum_case (p : FeedbackRow -> bool) (rows : list FeedbackRow) :
  rows <> [] ->
  sql_sum (map (fun r => case_1_0 (p r)) rows) = Some (count_rows p rows).
Proof.
  intros Hne. rewrite <- sum_case_count.
  destruct rows as [| x rows]; [contradiction | reflexivity].
Qed.

(** X9. On a store that holds a row the three SUM columns are numbers, never
    NULL: each is the number of rows it counts, between 0 and the total,
    and the total is the number of rows. *)
Theorem aggregateTotals_counts (rows : list FeedbackRow) (Hrows : rows <> []) :
  total (aggregateTotals rows) = Z.of_nat (List.length rows)
  /\ high_urgency (aggregateTotals rows) = Some (count_rows is_high_urgency rows)
  /\ critical (aggregateTotals rows) = Some (count_rows is_critical rows)
  /\ negative (aggregateTotals rows) = Some (count_rows is_negative rows)
  /\ (0 <= count_rows is_high_urgency rows <= total (aggregateTotals rows))%Z
  /\ (0 <= count_rows is_critical rows <= total (aggregateTotals rows))%Z
  /\ (0 <= count_rows is_negative rows <= total (aggregateTotals rows))%Z.
Proof.
  unfold aggregateTotals; simpl.
  split; [reflexivity |].
  split; [now apply (sql_sum_case is_high_urgency) |].
  split; [now apply (sql_sum_case is_critical) |].
  split; [now apply (sql_sum_case is_negative) |].
  repeat split; apply count_rows_bounds.
Qed.

Lemma aggregateTotals_counts_witness :
  high_urgency (aggregateTotals sample_rows) = Some (count_rows is_high_urgency sample_rows)
  /\ negative (aggregateTotals sample_rows) = Some (count_rows is_negative sample_rows).
Proof.
  destruct (aggregateTotals_counts sample_rows) as (_ & Hh & _ & Hn & _);
    [discriminate | split; [exact Hh | exact Hn]].
Defined.

Lemma ToNumber_count (p : FeedbackRow -> bool) (rows : list FeedbackRow) :
  ToNumber (sql_sum (map (fun r => case_1_0 (p r)) rows)) = inject_Z (count_rows p rows).
Proof.
  destruct rows as [| x rows]; [reflexivity |].
  rewrite sql_sum_case by discriminate. reflexivity.
Qed.

Lemma ToNumber_totals (rows : list FeedbackRow) :
  ToNumber (negative (aggregateTotals rows)) = inject_Z (count_rows is_negative rows)
  /\ ToNumber (high_urgency (aggregateTotals rows))
     = inject_Z (count_rows is_high_urgency rows)
  /\ ToNumber (critical (aggregateTotals rows)) = inject_Z (count_rows is_critical rows).
Proof.
  repeat split;
    [apply (ToNumber_count is_negative) | apply (ToNumber_count is_high_urgency)
     | apply (ToNumber_count is_critical)].
Qed.

Lemma half_lt (n m : Z) : inject_Z n / 2 < inject_Z m <-> (n < 2 * m)%Z.
Proof.
  rewrite Zlt_Qlt, inject_Z_mult. change (inject_Z 2) with 2.
  assert (H : inject_Z n / 2 == inject_Z n * (1 # 2)) by field.
  rewrite H. split; intros; lra.
Qed.

Lemma pos_lt (m : Z) : 0 < inject_Z m <-> (0 < m)%Z.
Proof. rewrite Zlt_Qlt. reflexivity. Qed.

(** X10. GET /stats on any store answers 200 with the row of the summary query
    and the sentence the rows call for: trending negative exactly when
    more than half of the rows are negative (exactly half is not enough),
    otherwise urgent exactly when some row is of high urgency or critical,
    otherwise low risk; nothing is written. *)
Theorem stats_reflects_store Number_toString (env : Env) (request : Request) (w : World)
  (Hmethod : method request = str "GET")
  (Hpath : pathname request = str "/stats") :
  exists summary,
    fetch Number_toString env request w
    = (Ok (json (JObj (stats_to_js (aggregateTotals (db w))
                       ++ [(str "summary", JStr summary)])) 200), w)
    /\ summary_for (db w) summary.
Proof.
  exists (stats_summary (aggregateTotals (db w))).
  split.
  - unfold fetch. rewrite Hmethod, Hpath. reflexivity.
  - destruct (ToNumber_totals (db w)) as (En & Eh & Ec).
    unfold summary_for, stats_summary. rewrite En, Eh, Ec.
    change (total (aggregateTotals (db w))) with (Z.of_nat (List.length (db w))).
    destruct (js_gt (inject_Z (count_rows is_negative (db w)))
                    (inject_Z (Z.of_nat (List.length (db w))) / 2)) eqn:Eneg.
    + apply js_gt_true, half_lt in Eneg. repeat split; intros; try reflexivity; lia.
    + apply js_gt_false in Eneg.
      assert (Hhalf : (2 * count_rows is_negative (db w)
                       <= Z.of_nat (List.length (db w)))%Z).
      { apply Z.le_ngt. intros Hlt. apply half_lt in Hlt. lra. }
      destruct (js_gt (inject_Z (count_rows is_high_urgency (db w))) 0) eqn:Ehu;
        destruct (js_gt (inject_Z (count_rows is_critical (db w))) 0) eqn:Ecr;
        repeat match goal with
               | H : js_gt _ _ = true |- _ => apply js_gt_true in H; rewrite pos_lt in H
               | H : js_gt _ _ = false |- _ =>
                   apply js_gt_false in H; change 0 with (inject_Z 0) in H;
                   rewrite <- Zle_Qle in H
               end;
        cbn [orb]; repeat split; intros; try reflexivity; try lia;
        exfalso; tauto || lia.
Qed.

Lemma stats_reflects_store_witness :
  exists summary,
    fetch (fun _ => []) env_no_AI
          (mkRequest (str "GET") (str "/stats") (Throw SyntaxError))
          (mkWorld sample_rows [] 0)
    = (Ok (json (JObj (stats_to_js (aggregateTotals sample_rows)
                       ++ [(str "summary", JStr summary)])) 200),
       mkWorld sample_rows [] 0)
    /\ summary = str "User sentiment is trending negative.".
Proof.
  destruct (stats_reflects_store (fun _ => []) env_no_AI
              (mkRequest (str "GET") (str "/stats") (Throw SyntaxError))
              (mkWorld sample_rows [] 0) eq_refl eq_refl)
    as (summary & Hfetch & Htrend & _).
  exists summary. split; [exact Hfetch |].
  apply Htrend. reflexivity.
Defined.

(** ** The by-theme query as a partition of the store *)

Lemma group_add_count (x : FeedbackRow) (gs : list Group) :
  sum_Z (map g_count (group_add x gs)) = (sum_Z (map g_count gs) + 1)%Z.
Proof.
  unfold sum_Z. induction gs as [| g rest IH]; simpl; [reflexivity |].
  destruct (sql_same (g_theme g) (theme x)); simpl; lia.
Qed.

Lemma group_add_length (x : FeedbackRow) (gs : list Group) :
  (List.length (group_add x gs) <= S (List.length gs))%nat.
Proof.
  induction gs as [| g rest IH]; simpl; [lia |].
  destruct (sql_same (g_theme g) (theme x)); simpl; lia.
Qed.

Lemma group_scan_totals (rows : list FeedbackRow) :
  sum_Z (map g_count (group_scan rows)) = Z.of_nat (List.length rows)
  /\ (List.length (group_scan rows) <= List.length rows)%nat.
Proof.
  induction rows as [| x rows [IHs IHl]] using rev_ind; [split; reflexivity |].
  rewrite group_scan_snoc, group_add_count, length_app. simpl.
  pose proof (group_add_length x (group_scan rows)). split; lia.
Qed.

Lemma distinct_rows (gs : list Group) :
  distinct gs ->
  ForallOrdPairs (fun r r' => sql_same (r_theme r) (r_theme r') = false)
                 (map group_row gs).
Proof.
  unfold distinct. induction 1 as [| g rest Hg Hrest IH]; simpl; constructor; auto.
  rewrite Forall_map. exact Hg.
Qed.

(** X11. The by-theme query partitions the store: every stored row belongs to
    the theme of one result row, no two result rows share a theme, the
    coverages add up to the number of stored rows, and there are at most as
    many result rows as stored rows. *)
Theorem by_theme_partition (rows : list FeedbackRow) :
  (forall x, In x rows ->
     exists r, In r (aggregateByTheme rows) /\ sql_same (r_theme r) (theme x) = true)
  /\ ForallOrdPairs (fun r r' => sql_same (r_theme r) (r_theme r') = false)
                    (aggregateByTheme rows)
  /\ sum_Z (map r_coverage (aggregateByTheme rows)) = Z.of_nat (List.length rows)
  /\ (List.length (aggregateByTheme rows) <= List.length rows)%nat.
Proof.
  destruct (group_scan_invariant rows) as (_ & Hd & Hc).
  destruct (group_scan_totals rows) as (Hsum & Hlen).
  unfold aggregateByTheme. repeat split.
  - intros x Hx. destruct (Hc x Hx) as (g & Hin & Hs).
    exists (group_row g). split; [now apply in_map | exact Hs].
  - now apply distinct_rows.
  - rewrite map_map. exact Hsum.
  - now rewrite length_map.
Qed.

(** ** Bounds of the means and of the priority *)

Lemma urgency_weight_bounds (v : SqlValue) : (1 <= urgency_weight v <= 3)%Z.
Proof.
  unfold urgency_weight.
  destruct (sql_is_text v (str "High")); [lia |].
  destruct (sql_is_text v (str "Medium")); lia.
Qed.

Lemma severity_weight_bounds (v : SqlValue) : (1 <= severity_weight v <= 3)%Z.
Proof.
  unfold severity_weight.
  destruct (sql_is_text v (str "Critical")); [lia |].
  destruct (sql_is_text v (str "Moderate")); lia.
Qed.

Lemma sum_Z_bounds {A} (f : A -> Z) (l : list A) :
  (forall a, (1 <= f a <= 3)%Z) ->
  (Z.of_nat (List.length l) <= sum_Z (map f l) <= 3 * Z.of_nat (List.length l))%Z.
Proof.
  intros Hf. unfold sum_Z. induction l as [| a l IH]; [simpl; lia |].
  change (List.length (a :: l)) with (S (List.length l)).
  simpl fold_right. specialize (Hf a). lia.
Qed.

Lemma ratio_bounds (s n : Z) :
  (0 < n)%Z -> (n <= s <= 3 * n)%Z -> 1 <= inject_Z s / inject_Z n <= 3.
Proof.
  intros Hn [Hlo Hhi].
  rewrite Zlt_Qlt in Hn. rewrite Zle_Qle in Hlo, Hhi.
  rewrite inject_Z_mult in Hhi. change (inject_Z 3) with 3 in Hhi.
  change (inject_Z 0) with 0 in Hn.
  split.
  - apply Qle_shift_div_l; [exact Hn | lra].
  - apply Qle_shift_div_r; [exact Hn | lra].
Qed.

Lemma group_row_bounds (rows : list FeedbackRow) (g : Group) :
  group_ok rows g ->
  (1 <= g_count g)%Z
  /\ 1 <= r_avg_urgency (group_row g) <= 3
  /\ 1 <= r_avg_severity (group_row g) <= 3.
Proof.
  intros (Hne & Hc & Hu & Hs).
  assert (Hpos : (0 < g_count g)%Z).
  { rewrite Hc. destruct (rows_of_theme (g_theme g) rows); [contradiction | simpl; lia]. }
  pose proof (sum_Z_bounds (fun x => urgency_weight (urgency x))
                (rows_of_theme (g_theme g) rows)
                (fun x => urgency_weight_bounds (urgency x))) as Bu.
  pose proof (sum_Z_bounds (fun x => severity_weight (severity x))
                (rows_of_theme (g_theme g) rows)
                (fun x => severity_weight_bounds (severity x))) as Bs.
  rewrite <- Hu, <- Hc in Bu. rewrite <- Hs, <- Hc in Bs.
  split; [lia |]. split; apply ratio_bounds; assumption.
Qed.

(** X12. For every row of the by-theme query the two means lie between 1 and 3
    and the priority between the coverage and nine times the coverage.
    Hence a theme of at most two records never gets the high-impact
    insight, and a theme other than Other of more than twenty records
    always gets it. *)
Theorem theme_row_bounds (rows : list FeedbackRow) (r : ThemeRow)
  (Hrow : In r (aggregateByTheme rows)) :
  (1 <= r_coverage r)%Z
  /\ 1 <= r_avg_urgency r <= 3
  /\ 1 <= r_avg_severity r <= 3
  /\ inject_Z (r_coverage r) <= raw_priority r <= 9 * inject_Z (r_coverage r)
  /\ ((r_coverage r <= 2)%Z ->
      insight (cluster_of r) <> str "High-impact issue affecting multiple users.")
  /\ (r_theme r <> SqlText (str "Other") -> (20 < r_coverage r)%Z ->
      insight (cluster_of r) = str "High-impact issue affecting multiple users."
      /\ recommendation (cluster_of r) = str "Prioritize investigation and remediation.").
Proof.
  unfold aggregateByTheme in Hrow. apply in_map_iff in Hrow.
  destruct Hrow as (g & <- & Hin).
  destruct (group_scan_invariant rows) as (Hok & _ & _).
  rewrite Forall_forall in Hok.
  destruct (group_row_bounds rows g (Hok g Hin)) as (Hc & [Hu1 Hu3] & [Hs1 Hs3]).
  set (r := group_row g) in *.
  assert (Hcov : r_coverage r = g_count g) by reflexivity.
  assert (Hc1 : 1 <= inject_Z (r_coverage r)).
  { rewrite Hcov. change 1 with (inject_Z 1). now rewrite <- Zle_Qle. }
  assert (Hraw : inject_Z (r_coverage r) <= raw_priority r <= 9 * inject_Z (r_coverage r)).
  { unfold raw_priority.
    set (c := inject_Z (r_coverage r)) in *.
    set (u := r_avg_urgency r) in *. set (v := r_avg_severity r) in *.
    assert (c <= c * u <= 3 * c) by (split; nra).
    split; nra. }
  split; [now rewrite Hcov |]. split; [now split |]. split; [now split |].
  split; [exact Hraw |]. split.
  - intros Hsmall. rewrite Zle_Qle in Hsmall. change (inject_Z 2) with 2 in Hsmall.
    unfold cluster_of. destruct (theme_is_Other r); [discriminate |].
    destruct (js_gt (raw_priority r) 20) eqn:Ep; [| discriminate].
    apply js_gt_true in Ep. exfalso. lra.
  - intros Hne Hbig. rewrite Zlt_Qlt in Hbig. change (inject_Z 20) with 20 in Hbig.
    unfold cluster_of.
    destruct (theme_is_Other r) eqn:Eo; [apply theme_is_Other_eq in Eo; contradiction |].
    destruct (js_gt (raw_priority r) 20) eqn:Ep; [split; reflexivity |].
    apply js_gt_false in Ep. exfalso. lra.
Qed.

Lemma theme_row_bounds_witness :
  inject_Z (r_coverage sample_theme_row) <= raw_priority sample_theme_row
  /\ insight (cluster_of sample_theme_row)
     <> str "High-impact issue affecting multiple users.".
Proof.
  assert (Hrow : In sample_theme_row (aggregateByTheme sample_rows))
    by (left; reflexivity).
  destruct (theme_row_bounds sample_rows sample_theme_row Hrow)
    as (_ & _ & _ & [Hlo _] & Hsmall & _).
  split; [exact Hlo | apply Hsmall; discriminate].
Defined.

(** ** The effects of the classifier adapter *)

Ltac world_kept :=
  split; [reflexivity |];
  split; [reflexivity |];
  first [left; reflexivity | right; eexists; reflexivity].

Lemma tagWithAI_world Number_toString (env : Env) (text : JsValue) (w : World) :
  db (snd (tagWithAI Number_toString env text w)) = db w
  /\ clock (snd (tagWithAI Number_toString env text w)) = clock w
  /\ (ai_calls (snd (tagWithAI Number_toString env text w)) = ai_calls w
      \/ exists p, ai_calls (snd (tagWithAI Number_toString env text w))
                   = ai_calls w ++ [p]).
Proof.
  unfold tagWithAI.
  destruct (AI env) as [run |]; [| simpl; world_kept].
  unfold bind, try_catch, lift, AI_run, ret, JSON_parse.
  destruct (ToString Number_toString text) as [t | e]; simpl; [| world_kept].
  destruct (run _ _ _) as [[| r] | e]; simpl; try world_kept.
  destruct (String_or_empty r) as [s | e]; simpl; try world_kept.
  destruct (Json.parse (clean s)); simpl; world_kept.
Qed.

(** X3. The adapter never touches the store or the clock.  It sends no prompt
    when the capability is unavailable or the text cannot be converted, and
    otherwise exactly one, the prompt built from the text, whatever the
    capability answers: a failed call is not retried. *)
Theorem tagWithAI_effects Number_toString (env : Env) (text : JsValue) (w : World) :
  db (snd (tagWithAI Number_toString env text w)) = db w
  /\ clock (snd (tagWithAI Number_toString env text w)) = clock w
  /\ (AI env = None -> snd (tagWithAI Number_toString env text w) = w)
  /\ (forall e, ToString Number_toString text = Throw e ->
      snd (tagWithAI Number_toString env text w) = w)
  /\ (forall run t, AI env = Some run -> ToString Number_toString text = Ok t ->
      ai_calls (snd (tagWithAI Number_toString env text w))
      = ai_calls w ++ [prompt_of t]).
Proof.
  destruct (tagWithAI_world Number_toString env text w) as (Hdb & Hclock & _).
  split; [exact Hdb |]. split; [exact Hclock |].
  unfold tagWithAI. repeat split.
  - intros ->. reflexivity.
  - intros e He. destruct (AI env); [| reflexivity].
    unfold bind, lift. now rewrite He.
  - intros run t -> Ht.
    unfold bind, try_catch, lift, AI_run, ret, JSON_parse. rewrite Ht. simpl.
    destruct (run _ _ _) as [[| r] | e]; simpl; try reflexivity.
    destruct (String_or_empty r) as [s | e]; simpl; try reflexivity.
    destruct (Json.parse (clean s)); reflexivity.
Qed.

(** ** What a successful ingestion stores *)

Lemma DB_insert_feedback_row (env : Env) (v1 v2 v3 v4 v5 v6 v7 v8 : JsValue) (w : World) :
  (exists c1 c2 c3 c4 c5 c6 c7 c8,
     bind_value v1 = Ok c1 /\ bind_value v2 = Ok c2 /\ bind_value v3 = Ok c3
     /\ bind_value v4 = Ok c4 /\ bind_value v5 = Ok c5 /\ bind_value v6 = Ok c6
     /\ bind_value v7 = Ok c7 /\ bind_value v8 = Ok c8
     /\ DB_insert_feedback env v1 v2 v3 v4 v5 v6 v7 v8 w
        = (Ok tt,
           mkWorld (db w ++ [mkRow (Z.of_nat (List.length (db w)) + 1)
                                   c1 c2 c3 c4 c5 c6 c7 c8 0])
                   (ai_calls w) (clock w)))
  \/ (exists e, DB_insert_feedback env v1 v2 v3 v4 v5 v6 v7 v8 w = (Throw e, w)).
Proof.
  unfold DB_insert_feedback, bind, lift.
  repeat match goal with
         | |- context [bind_value ?v] =>
             destruct (bind_value v) eqn:?; [| right; eexists; reflexivity]
         end.
  repeat match goal with
         | |- context [check_column env ?k ?b] =>
             let E := fresh "E" in
             destruct (check_column env k b) eqn:E;
               [apply check_column_ok in E; subst | right; eexists; reflexivity]
         end.
  left. do 8 eexists. repeat split; reflexivity.
Qed.

(** The three outcomes of the ingestion handler. *)
Lemma feedback_handler_outcome Number_toString (env : Env) (request : Request) (w : World) :
  (exists e, fst (feedback_handler Number_toString env request w) = Throw e
             /\ db (snd (feedback_handler Number_toString env request w)) = db w)
  \/ (feedback_handler Number_toString env request w
      = (Ok (json (JObj [(str "error", JStr (str "text, source, timestamp required"))]) 400),
         w))
  \/ (exists body tags row,
        request_json request = Ok body
        /\ truthy (body_field body (str "text")) = true
        /\ truthy (body_field body (str "source")) = true
        /\ truthy (body_field body (str "timestamp")) = true
        /\ fst (tagWithAI Number_toString env (body_field body (str "text")) w) = Ok tags
        /\ fst (feedback_handler Number_toString env request w)
           = Ok (json (JObj [(str "status", JStr (str "stored")); (str "tags", tags)]) 200)
        /\ db (snd (feedback_handler Number_toString env request w)) = db w ++ [row]
        /\ clock (snd (feedback_handler Number_toString env request w)) = S (clock w)
        /\ feedback_row_of env w body tags row).
Proof.
  unfold feedback_handler, bind, lift.
  destruct (request_json request) as [body | e] eqn:Hjson;
    [| left; exists e; split; reflexivity].
  rewrite !destructured_field.
  destruct (truthy (body_field body (str "text"))) eqn:T1;
    [| right; left; reflexivity].
  destruct (truthy (body_field body (str "source"))) eqn:T2;
    [| right; left; reflexivity].
  destruct (truthy (body_field body (str "timestamp"))) eqn:T3;
    [| right; left; reflexivity].
  cbn [negb orb].
  destruct (tagWithAI_world Number_toString env (body_field body (str "text")) w)
    as (Hdb & Hclock & _).
  destruct (tagWithAI Number_toString env (body_field body (str "text")) w)
    as [[tags | e] w1] eqn:Htag; simpl in Hdb, Hclock;
    [| left; exists e; split; [reflexivity | exact Hdb]].
  unfold Date_toISOString.
  destruct (get_prop tags (str "theme")) as [v5 | e] eqn:G5;
    [| left; exists e; split; [reflexivity | exact Hdb]].
  destruct (get_prop tags (str "urgency")) as [v6 | e] eqn:G6;
    [| left; exists e; split; [reflexivity | exact Hdb]].
  destruct (get_prop tags (str "severity")) as [v7 | e] eqn:G7;
    [| left; exists e; split; [reflexivity | exact Hdb]].
  destruct (get_prop tags (str "sentiment")) as [v8 | e] eqn:G8;
    [| left; exists e; split; [reflexivity | exact Hdb]].
  match goal with
  | |- context [DB_insert_feedback env ?a ?b ?c ?d v5 v6 v7 v8 ?w'] =>
      destruct (DB_insert_feedback_row env a b c d v5 v6 v7 v8 w')
        as [(c1 & c2 & c3 & c4 & c5 & c6 & c7 & c8
             & B1 & B2 & B3 & B4 & B5 & B6 & B7 & B8 & Hins) | (e & Hins)];
        rewrite Hins
  end.
  - right; right. simpl in Hins |- *.
    exists body, tags,
      (mkRow (Z.of_nat (List.length (db w1)) + 1) c1 c2 c3 c4 c5 c6 c7 c8 0).
    injection B4 as <-.
    rewrite Htag, Hdb, Hclock.
    repeat split; try reflexivity; try assumption;
      unfold stored_field; simpl; eauto.
  - left. exists e. split; [reflexivity | exact Hdb].
Qed.

(** X5. A POST /feedback changes the store exactly when it is answered with
    200: the answer then carries the tags the adapter returned for the
    submitted text, and exactly one record has been appended after one
    reading of the clock.  A 400 leaves the world as it was, and a failure
    leaves the store as it was. *)
Theorem feedback_effects Number_toString (env : Env) (request : Request) (w : World)
  (Hmethod : method request = str "POST")
  (Hpath : pathname request = str "/feedback") :
  match fetch Number_toString env request w with
  | (Ok response, w') =>
      (status response = 400%Z /\ w' = w)
      \/ (exists body tags row,
            request_json request = Ok body
            /\ fst (tagWithAI Number_toString env (body_field body (str "text")) w)
               = Ok tags
            /\ response
               = json (JObj [(str "status", JStr (str "stored")); (str "tags", tags)]) 200
            /\ db w' = db w ++ [row]
            /\ clock w' = S (clock w))
  | (Throw _, w') => db w' = db w
  end.
Proof.
  rewrite fetch_feedback by assumption.
  destruct (feedback_handler_outcome Number_toString env request w)
    as [(e & Hout & Hdb)
       | [Hout | (body & tags & row & Hj & _ & _ & _ & Htags & Hout & Hdb & Hclock & _)]].
  - destruct (feedback_handler Number_toString env request w) as [[r | e'] w'];
      simpl in *; [discriminate | exact Hdb].
  - rewrite Hout. left. split; reflexivity.
  - destruct (feedback_handler Number_toString env request w) as [[r | e'] w'];
      simpl in *; [| discriminate].
    injection Hout as ->. right. exists body, tags, row. auto.
Qed.

Lemma feedback_effects_witness :
  match fetch (fun _ => []) env_null_theme valid_submission empty_world with
  | (Ok response, w') =>
      (status response = 400%Z /\ w' = empty_world)
      \/ (exists body tags row,
            request_json valid_submission = Ok body
            /\ fst (tagWithAI (fun _ => []) env_null_theme
                              (body_field body (str "text")) empty_world)
               = Ok tags
            /\ response
               = json (JObj [(str "status", JStr (str "stored")); (str "tags", tags)]) 200
            /\ db w' = db empty_world ++ [row]
            /\ clock w' = S (clock empty_world))
  | (Throw _, w') => db w' = db empty_world
  end.
Proof.
  apply (feedback_effects (fun _ => []) env_null_theme valid_submission empty_world);
    reflexivity.
Defined.

(** ** What the seed handler stores *)

Lemma seed_one_outcome Number_toString (env : Env) (s : jsstring * jsstring) (w : World) :
  (exists e, fst (seed_one Number_toString env s w) = Throw e
             /\ db (snd (seed_one Number_toString env s w)) = db w)
  \/ (exists row,
        fst (seed_one Number_toString env s w) = Ok tt
        /\ db (snd (seed_one Number_toString env s w)) = db w ++ [row]
        /\ seeded_from s row).
Proof.
  unfold seed_one, bind, lift.
  destruct (tagWithAI_world Number_toString env (JStr (fst s)) w) as (Hdb & _ & _).
  destruct (tagWithAI Number_toString env (JStr (fst s)) w)
    as [[tags | e] w1]; simpl in Hdb;
    [| left; exists e; split; [reflexivity | exact Hdb]].
  unfold Date_toISOString.
  destruct (get_prop tags (str "theme")) as [v5 | e];
    [| left; exists e; split; [reflexivity | exact Hdb]].
  destruct (get_prop tags (str "urgency")) as [v6 | e];
    [| left; exists e; split; [reflexivity | exact Hdb]].
  destruct (get_prop tags (str "severity")) as [v7 | e];
    [| left; exists e; split; [reflexivity | exact Hdb]].
  destruct (get_prop tags (str "sentiment")) as [v8 | e];
    [| left; exists e; split; [reflexivity | exact Hdb]].
  match goal with
  | |- context [DB_insert_feedback env ?a ?b ?c ?d v5 v6 v7 v8 ?w'] =>
      destruct (DB_insert_feedback_row env a b c d v5 v6 v7 v8 w')
        as [(c1 & c2 & c3 & c4 & c5 & c6 & c7 & c8
             & B1 & B2 & B3 & B4 & B5 & B6 & B7 & B8 & Hins) | (e & Hins)];
        rewrite Hins
  end.
  - right. eexists. split; [reflexivity |]. simpl. rewrite Hdb.
    split; [reflexivity |].
    injection B1 as <-. injection B2 as <-. injection B3 as <-. injection B4 as <-.
    unfold seeded_from; simpl. repeat split; discriminate.
  - left. exists e. split; [reflexivity | exact Hdb].
Qed.

Section Loop.

Context {A : Type} (f : A -> M unit) (stored : A -> FeedbackRow -> Prop).

Hypothesis step :
  forall a w,
    (exists e, fst (f a w) = Throw e /\ db (snd (f a w)) = db w)
    \/ (exists row, fst (f a w) = Ok tt /\ db (snd (f a w)) = db w ++ [row]
                    /\ stored a row).

(** A loop that stores one row per element either completes, with one row
    for every element in order, or stops at the first failure, keeping the
    rows of the elements before it. *)
Lemma for_each_outcome (l : list A) (w : World) :
  (fst (for_each f l w) = Ok tt
   /\ exists new, db (snd (for_each f l w)) = db w ++ new /\ Forall2 stored l new)
  \/ (exists e k new,
        fst (for_each f l w) = Throw e /\ (k < List.length l)%nat
        /\ db (snd (for_each f l w)) = db w ++ new
        /\ Forall2 stored (firstn k l) new).
Proof.
  revert w. induction l as [| a l IH]; intros w; simpl.
  - left. split; [reflexivity |]. exists []. rewrite app_nil_r. split; constructor.
  - unfold bind.
    destruct (step a w) as [(e & Hout & Hdb) | (row & Hout & Hdb & Hrow)];
      destruct (f a w) as [[[] | e'] w1]; simpl in Hout, Hdb; try discriminate.
    + right. exists e', 0%nat, []. simpl. rewrite app_nil_r.
      repeat split; [lia | exact Hdb | constructor].
    + destruct (IH w1) as [(Hok & new & Hnew & Hall) | (e & k & new & Hthrow & Hk & Hnew & Hall)].
      * left. split; [exact Hok |]. exists (row :: new).
        rewrite Hnew, Hdb, <- app_assoc. split; [reflexivity | now constructor].
      * right. exists e, (S k), (row :: new).
        rewrite Hnew, Hdb, <- app_assoc. simpl.
        repeat split; [exact Hthrow | lia | now constructor].
Qed.

End Loop.

Lemma fetch_seed Number_toString (env : Env) (request : Request) :
  method request = str "GET" -> pathname request = str "/seed" ->
  fetch Number_toString env request = seed_handler Number_toString env.
Proof.
  intros Hm Hp. unfold fetch. rewrite Hm, Hp. reflexivity.
Qed.

(** X14. GET /seed that answers has appended one record for each of the eight
    samples, in order, with the sample's text and source, the same instant
    as timestamp and as creation time, and [escalated] 0, and reports the
    count 8.  When an iteration fails the request fails, nothing is rolled
    back, and the records of the samples before the failing one stay. *)
Theorem seed_effects Number_toString (env : Env) (request : Request) (w : World)
  (Hmethod : method request = str "GET")
  (Hpath : pathname request = str "/seed") :
  match fetch Number_toString env request w with
  | (Ok response, w') =>
      response = json (JObj [ (str "status", JStr (str "seeded"));
                              (str "count", JNum 8) ]) 200
      /\ exists new, db w' = db w ++ new /\ Forall2 seeded_from samples new
  | (Throw _, w') =>
      exists k new, (k < 8)%nat /\ db w' = db w ++ new
                    /\ Forall2 seeded_from (firstn k samples) new
  end.
Proof.
  rewrite fetch_seed by assumption. unfold seed_handler, bind.
  destruct (for_each_outcome (seed_one Number_toString env) seeded_from
              (seed_one_outcome Number_toString env) samples w)
    as [(Hok & new & Hnew & Hall) | (e & k & new & Hthrow & Hk & Hnew & Hall)];
    destruct (for_each (seed_one Number_toString env) samples w) as [[[] | e'] w1];
    simpl in *; try discriminate.
  - split; [reflexivity |]. exists new. auto.
  - exists k, new. auto.
Qed.

Lemma seed_effects_witness :
  match fetch (fun _ => []) env_null_theme
              (mkRequest (str "GET") (str "/seed") (Throw SyntaxError)) empty_world with
  | (Ok response, w') =>
      response = json (JObj [ (str "status", JStr (str "seeded"));
                              (str "count", JNum 8) ]) 200
      /\ exists new, db w' = db empty_world ++ new /\ Forall2 seeded_from samples new
  | (Throw _, w') =>
      exists k new, (k < 8)%nat /\ db w' = db empty_world ++ new
                    /\ Forall2 seeded_from (firstn k samples) new
  end.
Proof.
  apply (seed_effects (fun _ => []) env_null_theme
           (mkRequest (str "GET") (str "/seed") (Throw SyntaxError)) empty_world);
    reflexivity.
Defined.

Lemma seed_one_without_AI Number_toString (env : Env) (s : jsstring * jsstring) (w : World) :
  AI env = None ->
  exists row,
    seed_one Number_toString env s w
    = (Ok tt, mkWorld (db w ++ [row]) (ai_calls w) (S (clock w)))
    /\ seeded_from s row /\ has_fallback_tags row.
Proof.
  intros Hai. unfold seed_one, tagWithAI. rewrite Hai.
  eexists. split; [reflexivity |].
  split; [unfold seeded_from | unfold has_fallback_tags]; simpl;
    repeat split; discriminate.
Qed.

Lemma for_each_without_AI Number_toString (env : Env) (l : list (jsstring * jsstring))
  (w : World) :
  AI env = None ->
  exists new,
    for_each (seed_one Number_toString env) l w
    = (Ok tt, mkWorld (db w ++ new) (ai_calls w) (List.length l + clock w))
    /\ Forall2 seeded_from l new /\ Forall has_fallback_tags new.
Proof.
  intros Hai. revert w. induction l as [| s l IH]; intros w; simpl.
  - exists []. rewrite app_nil_r. destruct w. repeat split; constructor.
  - unfold bind.
    destruct (seed_one_without_AI Number_toString env s w Hai) as (row & -> & Hs & Hf).
    destruct (IH (mkWorld (db w ++ [row]) (ai_calls w) (S (clock w))))
      as (new & -> & Hall & Hfb).
    exists (row :: new). simpl. rewrite <- app_assoc, Nat.add_succ_r. simpl.
    repeat split; now constructor.
Qed.

(** X15. Without classification capability GET /seed cannot fail: it answers
    200 with the count 8, sends no prompt, and appends eight records, one
    per sample in order, each with the fallback tag set. *)
Theorem seed_without_AI Number_toString (env : Env) (request : Request) (w : World)
  (Hmethod : method request = str "GET")
  (Hpath : pathname request = str "/seed")
  (Hai : AI env = None) :
  exists new,
    fetch Number_toString env request w
    = (Ok (json (JObj [ (str "status", JStr (str "seeded"));
                        (str "count", JNum 8) ]) 200),
       mkWorld (db w ++ new) (ai_calls w) (8 + clock w))
    /\ Forall2 seeded_from samples new
    /\ Forall has_fallback_tags new.
Proof.
  rewrite fetch_seed by assumption. unfold seed_handler, bind.
  destruct (for_each_without_AI Number_toString env samples w Hai)
    as (new & -> & Hall & Hfb).
  exists new. repeat split; assumption.
Qed.

Lemma seed_without_AI_witness :
  exists new,
    fetch (fun _ => []) env_no_AI
          (mkRequest (str "GET") (str "/seed") (Throw SyntaxError)) empty_world
    = (Ok (json (JObj [ (str "status", JStr (str "seeded"));
                        (str "count", JNum 8) ]) 200),
       mkWorld (db empty_world ++ new) (ai_calls empty_world) (8 + clock empty_world))
    /\ Forall2 seeded_from samples new
    /\ Forall has_fallback_tags new.
Proof.
  apply (seed_without_AI (fun _ => []) env_no_AI
           (mkRequest (str "GET") (str "/seed") (Throw SyntaxError)) empty_world);
    reflexivity.
Defined.

(** ** Reading after writing *)

Lemma rows_of_theme_same (t t' : SqlValue) (rows : list FeedbackRow) :
  sql_same t t' = true -> rows_of_theme t rows = rows_of_theme t' rows.
Proof.
  intros Hs. unfold rows_of_theme. apply filter_ext. intros x.
  destruct (sql_same t' (theme x)) eqn:E.
  - now apply sql_same_trans with t'.
  - destruct (sql_same t (theme x)) eqn:E'; [| reflexivity].
    rewrite <- E. symmetry. apply sql_same_trans with t; [now apply sql_same_sym | exact E'].
Qed.

Lemma appended_row_counted (rows : list FeedbackRow) (x : FeedbackRow) :
  total (aggregateTotals (rows ++ [x])) = (total (aggregateTotals rows) + 1)%Z
  /\ exists r,
       In r (aggregateByTheme (rows ++ [x]))
       /\ sql_same (r_theme r) (theme x) = true
       /\ r_coverage r = (Z.of_nat (List.length (rows_of_theme (theme x) rows)) + 1)%Z.
Proof.
  split.
  - unfold aggregateTotals; simpl. rewrite length_app. simpl. lia.
  - destruct (group_scan_invariant (rows ++ [x])) as (Hok & _ & Hc).
    destruct (Hc x) as (g & Hin & Hs); [apply in_or_app; right; now left |].
    rewrite Forall_forall in Hok. destruct (Hok g Hin) as (_ & Hcount & _).
    exists (group_row g). split; [unfold aggregateByTheme; now apply in_map |].
    split; [exact Hs |]. simpl. rewrite Hcount.
    rewrite rows_of_theme_snoc, Hs, length_app, (rows_of_theme_same _ _ rows Hs).
    simpl. lia.
Qed.

(** X8. A record stored by POST /feedback shows in the aggregates read next:
    the total of the summary query is one more than before, and the
    by-theme query has a row of the record's theme whose coverage is one
    more than the number of records of that theme stored before. *)
Theorem ingestion_read_after_write Number_toString (env : Env) (request : Request)
  (w w' : World) (response : Response)
  (Hmethod : method request = str "POST")
  (Hpath : pathname request = str "/feedback")
  (Hfetch : fetch Number_toString env request w = (Ok response, w'))
  (Hstatus : status response = 200%Z) :
  exists row,
    db w' = db w ++ [row]
    /\ total (aggregateTotals (db w')) = (total (aggregateTotals (db w)) + 1)%Z
    /\ exists r,
         In r (aggregateByTheme (db w'))
         /\ sql_same (r_theme r) (theme row) = true
         /\ r_coverage r
            = (Z.of_nat (List.length (rows_of_theme (theme row) (db w))) + 1)%Z.
Proof.
  rewrite fetch_feedback in Hfetch by assumption.
  destruct (feedback_handler_outcome Number_toString env request w)
    as [(e & Hout & _) | [Hout | (body & tags & row & _ & _ & _ & _ & _ & _ & Hdb & _)]];
    rewrite Hfetch in *; simpl in *.
  - discriminate.
  - injection Hout as Hr _. subst response. discriminate Hstatus.
  - exists row. split; [exact Hdb |]. rewrite Hdb. apply appended_row_counted.
Qed.

Lemma ingestion_read_after_write_witness :
  exists row,
    db (snd (fetch (fun _ => []) env_no_AI valid_submission (mkWorld sample_rows [] 0)))
    = sample_rows ++ [row]
    /\ total (aggregateTotals
                (db (snd (fetch (fun _ => []) env_no_AI valid_submission
                                (mkWorld sample_rows [] 0)))))
       = 4%Z.
Proof.
  destruct (ingestion_read_after_write (fun _ => []) env_no_AI valid_submission
              (mkWorld sample_rows [] 0)
              (snd (fetch (fun _ => []) env_no_AI valid_submission
                          (mkWorld sample_rows [] 0)))
              (json (JObj [(str "status", JStr (str "stored")); (str "tags", fallback)]) 200)
              eq_refl eq_refl eq_refl eq_refl)
    as (row & Hdb & Htotal & _).
  exists row. split; [exact Hdb | exact Htotal].
Defined.

(** ** Code fences around the response *)

Lemma replace_from_skips (c0 : N) (p rep s t : jsstring) :
  ~ In c0 s ->
  replace_from (c0 :: p) rep 0 (s ++ t) = s ++ replace_from (c0 :: p) rep 0 t.
Proof.
  induction s as [| c s IH]; intros Hnot; [reflexivity |].
  assert (Hc : N.eqb c0 c = false).
  { apply N.eqb_neq. intros ->. apply Hnot. now left. }
  change ((c :: s) ++ t) with (c :: (s ++ t)).
  cbn [replace_from is_prefix]. rewrite Hc. cbn [andb].
  rewrite IH; [reflexivity |]. intros Hin. apply Hnot. now right.
Qed.

Lemma replace_all_untouched (c0 : N) (p rep s : jsstring) :
  ~ In c0 s -> replace_all (c0 :: p) rep s = s.
Proof.
  intros Hnot. unfold replace_all.
  rewrite <- (app_nil_r s) at 1. rewrite replace_from_skips by exact Hnot.
  simpl. apply app_nil_r.
Qed.

Lemma spaces_only (s : jsstring) : trim_start s = [] -> Forall (fun c => is_js_space c = true) s.
Proof.
  induction s as [| c s IH]; simpl; [constructor |].
  destruct (is_js_space c) eqn:E; [| discriminate].
  intros H. constructor; auto.
Qed.

Lemma trim_start_spaces (s t : jsstring) :
  Forall (fun c => is_js_space c = true) s -> trim_start (s ++ t) = trim_start t.
Proof.
  induction 1 as [| c s Hc _ IH]; simpl; [reflexivity | now rewrite Hc].
Qed.

Lemma trim_start_keeps (s t : jsstring) :
  trim_start s <> [] -> trim_start (s ++ t) = trim_start s ++ t.
Proof.
  induction s as [| c s IH]; simpl; [contradiction |].
  destruct (is_js_space c); [exact IH | reflexivity].
Qed.

Lemma trim_newlines (j : jsstring) : trim (nl :: j ++ [nl]) = trim j.
Proof.
  unfold trim. change (trim_start (nl :: j ++ [nl])) with (trim_start (j ++ [nl])).
  f_equal.
  destruct (trim_start j) as [| c r] eqn:E.
  - rewrite trim_start_spaces by now apply spaces_only. reflexivity.
  - rewrite trim_start_keeps by (rewrite E; discriminate).
    rewrite E, rev_app_distr. reflexivity.
Qed.

(** X4. A response wrapped in a json code fence is read as the response
    itself: when the wrapped text holds no backtick, the cleaned text is the
    trimmed text, and the adapter parses exactly what it would parse without
    the fence. *)
Theorem clean_fenced (j : jsstring) (Hplain : ~ In backtick j) :
  clean (fenced j) = trim j
  /\ clean j = trim j
  /\ parsed_reply (Ok (AiObject (FieldText (fenced j))))
     = parsed_reply (Ok (AiObject (FieldText j))).
Proof.
  assert (Hinner : ~ In backtick (nl :: j ++ [nl])).
  { intros [H | H]; [discriminate |].
    apply in_app_or in H. destruct H as [H | [H | []]]; [contradiction | discriminate]. }
  assert (Hfenced : clean (fenced j) = trim j).
  { assert (Hshape : fenced j = str "```json" ++ ((nl :: j ++ [nl]) ++ str "```")).
    { unfold fenced. rewrite (app_assoc j [nl] (str "```")). reflexivity. }
    unfold clean. rewrite Hshape.
    assert (H1 : replace_all (str "```json") []
                   (str "```json" ++ ((nl :: j ++ [nl]) ++ str "```"))
                 = replace_all (str "```json") [] ((nl :: j ++ [nl]) ++ str "```"))
      by reflexivity.
    rewrite H1. unfold replace_all.
    change (str "```json") with (backtick :: str "``json").
    rewrite replace_from_skips by exact Hinner.
    change (replace_from (backtick :: str "``json") [] 0 (str "```")) with (str "```").
    change (str "```") with (backtick :: str "``") at 1.
    rewrite replace_from_skips by exact Hinner.
    change (replace_from (backtick :: str "``") [] 0 (str "```")) with (@nil N).
    rewrite app_nil_r. apply trim_newlines. }
  assert (Hplain' : clean j = trim j).
  { unfold clean.
    change (str "```json") with (backtick :: str "``json").
    change (str "```") with (backtick :: str "``").
    rewrite (replace_all_untouched backtick (str "``json") [] j Hplain).
    rewrite (replace_all_untouched backtick (str "``") [] j Hplain). reflexivity. }
  split; [exact Hfenced |]. split; [exact Hplain' |].
  simpl. now rewrite Hfenced, Hplain'.
Qed.

Lemma clean_fenced_witness :
  clean (fenced (str "{ }")) = trim (str "{ }").
Proof.
  apply (clean_fenced (str "{ }")).
  intros [H | [H | [H | []]]]; discriminate.
Defined.

(** ** A field that passes validation but cannot be stored *)

(** X6. The presence check of POST /feedback does not look at types: when the
    three fields are truthy but one of them is a value D1 cannot bind (an
    object, or an array that is not an array of bytes), the request is not
    answered with 400; it fails, and no record is stored. *)
Theorem feedback_unbindable_field Number_toString (env : Env) (request : Request)
  (body : JsValue) (w : World)
  (Hmethod : method request = str "POST")
  (Hpath : pathname request = str "/feedback")
  (Hbody : request_json request = Ok body)
  (Htext : truthy (body_field body (str "text")) = true)
  (Hsource : truthy (body_field body (str "source")) = true)
  (Htimestamp : truthy (body_field body (str "timestamp")) = true)
  (Hbad : bind_value (body_field body (str "text")) = Throw D1_TYPE_ERROR
          \/ bind_value (body_field body (str "source")) = Throw D1_TYPE_ERROR
          \/ bind_value (body_field body (str "timestamp")) = Throw D1_TYPE_ERROR) :
  exists e,
    fst (fetch Number_toString env request w) = Throw e
    /\ db (snd (fetch Number_toString env request w)) = db w.
Proof.
  rewrite fetch_feedback by assumption.
  destruct (feedback_handler_outcome Number_toString env request w)
    as [Hthrow | [Hout | (body' & tags & row & Hj & _ & _ & _ & _ & _ & _ & _ & Hrow)]].
  - exact Hthrow.
  - exfalso. revert Hout. unfold feedback_handler, bind, lift.
    rewrite Hbody, !destructured_field, Htext, Hsource, Htimestamp. cbn [negb orb].
    destruct (tagWithAI Number_toString env (body_field body (str "text")) w)
      as [[tags | e] w1]; [| discriminate].
    unfold Date_toISOString.
    destruct (get_prop tags (str "theme")); [| discriminate].
    destruct (get_prop tags (str "urgency")); [| discriminate].
    destruct (get_prop tags (str "severity")); [| discriminate].
    destruct (get_prop tags (str "sentiment")); [| discriminate].
    match goal with
    | |- context [DB_insert_feedback env ?a ?b ?c ?d ?v5 ?v6 ?v7 ?v8 ?w'] =>
        destruct (DB_insert_feedback env a b c d v5 v6 v7 v8 w') as [[[] | e] w2]
    end; discriminate.
  - exfalso. rewrite Hbody in Hj. injection Hj as <-.
    destruct Hrow as (_ & B1 & B2 & B3 & _).
    destruct Hbad as [H | [H | H]]; congruence.
Qed.

Lemma feedback_unbindable_field_witness :
  exists e,
    fst (fetch (fun _ => []) env_no_AI
               (mkRequest (str "POST") (str "/feedback")
                  (Ok (JObj [ (str "text", JObj []);
                              (str "source", JStr (str "GitHub"));
                              (str "timestamp", JStr (str "2024-01-01")) ])))
               empty_world)
    = Throw e.
Proof.
  destruct (feedback_unbindable_field (fun _ => []) env_no_AI
              (mkRequest (str "POST") (str "/feedback")
                 (Ok (JObj [ (str "text", JObj []);
                             (str "source", JStr (str "GitHub"));
                             (str "timestamp", JStr (str "2024-01-01")) ])))
              (JObj [ (str "text", JObj []);
                      (str "source", JStr (str "GitHub"));
                      (str "timestamp", JStr (str "2024-01-01")) ])
              empty_world eq_refl eq_refl eq_refl eq_refl eq_refl eq_refl
              (or_introl eq_refl)) as (e & He & _).
  exists e. exact He.
Defined.

(** ** The clusters of the response and the store *)

Lemma sum_Z_perm (l l' : list Z) : Permutation l l' -> sum_Z l = sum_Z l'.
Proof.
  unfold sum_Z. induction 1; simpl; lia.
Qed.

Lemma cluster_coverage_rows (results : list ThemeRow) :
  map coverage (map cluster_of results) = map r_coverage results.
Proof.
  rewrite map_map. apply map_ext. intros r.
  now destruct (cluster_of_fields r) as (_ & Hc & _).
Qed.

(** X13. The clusters of the response account for the whole store: their
    coverages add up to the number of stored records, every stored record
    has a cluster of its theme, and there are at most as many clusters as
    records. *)
Theorem clusters_cover_store (rows : list FeedbackRow) :
  sum_Z (map coverage (clusters_of (aggregateByTheme rows))) = Z.of_nat (List.length rows)
  /\ (List.length (clusters_of (aggregateByTheme rows)) <= List.length rows)%nat
  /\ forall x, In x rows ->
       exists c, In c (clusters_of (aggregateByTheme rows))
                 /\ sql_same (c_theme c) (theme x) = true
                 /\ (1 <= coverage c)%Z.
Proof.
  pose proof (sort_by_perm priority (map cluster_of (aggregateByTheme rows))) as Hperm.
  fold (clusters_of (aggregateByTheme rows)) in Hperm.
  destruct (group_scan_invariant rows) as (Hok & _ & Hc).
  destruct (group_scan_totals rows) as (Hsum & Hlen).
  repeat split.
  - rewrite <- (sum_Z_perm _ _ (Permutation_map coverage Hperm)).
    rewrite cluster_coverage_rows. unfold aggregateByTheme. rewrite map_map. exact Hsum.
  - rewrite <- (Permutation_length Hperm). unfold aggregateByTheme.
    now rewrite !length_map.
  - intros x Hx. destruct (Hc x Hx) as (g & Hin & Hs).
    exists (cluster_of (group_row g)). split.
    + apply (Permutation_in _ Hperm). apply in_map. unfold aggregateByTheme.
      now apply in_map.
    + destruct (cluster_of_fields (group_row g)) as (Ht & Hcov & _).
      rewrite Ht, Hcov. split; [exact Hs |].
      rewrite Forall_forall in Hok.
      now destruct (group_row_bounds rows g (Hok g Hin)) as (H1 & _).
Qed.

(** * The cluster arithmetic in binary64 *)

Lemma pow2_nonpos (k : Z) : (k <= 0)%Z -> F64.pow2 k == / inject_Z (2 ^ (- k)).
Proof.
  intros Hk. unfold F64.pow2.
  destruct (0 <=? k)%Z eqn:E.
  - apply Z.leb_le in E. assert (k = 0%Z) by lia. subst k. reflexivity.
  - assert (Hpos : (0 < 2 ^ (- k))%Z) by (apply Z.pow_pos_nonneg; lia).
    unfold Qeq, Qinv. destruct (2 ^ (- k))%Z as [| d | d] eqn:Ed; try lia.
    simpl. reflexivity.
Qed.

Lemma ilog2_Z (n : Z) : (0 < n)%Z -> F64.ilog2 (inject_Z n) = Z.log2 n.
Proof.
  intros Hn. unfold F64.ilog2. simpl. rewrite Z.sub_0_r.
  assert (H : Qle_bool (F64.pow2 (Z.log2 n)) (inject_Z n) = true).
  { apply Qle_bool_iff. unfold F64.pow2.
    pose proof (Z.log2_nonneg n) as H0. apply Z.leb_le in H0. rewrite H0.
    rewrite <- Zle_Qle. now apply Z.log2_spec. }
  now rewrite H.
Qed.

Lemma rne_Z (x : Q) (m : Z) : x == inject_Z m -> F64.rne x = m.
Proof.
  intros H. unfold F64.rne.
  assert (Hf : Qfloor x = m) by (rewrite H; apply Qfloor_Z).
  rewrite Hf.
  assert (Hlt : Qcompare (x - inject_Z m) (1 # 2) = Lt).
  { apply (proj1 (Qlt_alt _ _)). rewrite H. lra. }
  now rewrite Hlt.
Qed.

Lemma round_pos_Z (n : Z) :
  (0 < n < 2 ^ 53)%Z -> F64.round_pos (inject_Z n) == inject_Z n.
Proof.
  intros [Hpos Hlt]. unfold F64.round_pos.
  rewrite ilog2_Z by exact Hpos.
  pose proof (Z.log2_nonneg n) as H0.
  assert (H53 : (Z.log2 n < 53)%Z) by (apply Z.log2_lt_pow2; lia).
  rewrite Z.max_l by lia.
  set (k := (Z.log2 n - 52)%Z).
  assert (Hk : (k <= 0)%Z) by (unfold k; lia).
  assert (Hd : (0 < 2 ^ (- k))%Z) by (apply Z.pow_pos_nonneg; lia).
  assert (Hd' : ~ inject_Z (2 ^ (- k)) == 0).
  { intros H. rewrite Zlt_Qlt in Hd. change (inject_Z 0) with 0 in Hd. lra. }
  rewrite (rne_Z _ (n * 2 ^ (- k))).
  - rewrite pow2_nonpos by exact Hk. rewrite inject_Z_mult. field. exact Hd'.
  - rewrite pow2_nonpos by exact Hk. rewrite inject_Z_mult. field.
    repeat split; (exact Hd' || discriminate).
Qed.

(** An integer below 2^53 is a Number as it is. *)
Lemma of_Z_exact (n : Z) : (0 <= n < 2 ^ 53)%Z -> F64.of_Z n = inject_Z n.
Proof.
  intros [H0 Hlt]. unfold F64.of_Z, F64.round.
  assert (Hred : Qred (inject_Z n) = inject_Z n).
  { apply Qcanon.Qred_identity. simpl. apply Z.gcd_1_r. }
  rewrite Hred. simpl Qnum.
  destruct n as [| p | p]; [reflexivity | | lia].
  rewrite <- Hred at 2. apply Qred_complete. apply round_pos_Z. lia.
Qed.

Lemma cluster_of_fields64 (r : ThemeRow) :
  avg_urgency (Binary64.cluster_of r) = Binary64.Number_toFixed2 (r_avg_urgency r)
  /\ avg_severity (Binary64.cluster_of r) = Binary64.Number_toFixed2 (r_avg_severity r)
  /\ priority (Binary64.cluster_of r)
     = Binary64.Number_toFixed2 (Binary64.raw_priority r).
Proof.
  unfold Binary64.cluster_of.
  destruct (theme_is_Other r); [repeat split |].
  destruct (js_gt (Binary64.raw_priority r) 20); repeat split.
Qed.

Lemma AVG_mean {A} (f : A -> Z) (l : list A) :
  l <> [] -> (forall a, (1 <= f a <= 3)%Z) ->
  (3 * Z.of_nat (List.length l) < 2 ^ 53)%Z ->
  Binary64.AVG (sum_Z (map f l)) (Z.of_nat (List.length l)) = F64.round (mean (map f l)).
Proof.
  intros Hne Hf Hsize.
  pose proof (sum_Z_bounds f l Hf) as [Hlo Hhi].
  unfold Binary64.AVG, F64.div, mean.
  rewrite !of_Z_exact by lia. now rewrite length_map.
Qed.

(** C1. For every row of the by-theme aggregation, computed as the platform
    computes it, the coverage is the number of stored rows of that theme,
    the two averages are the means over those rows of the weights (High and
    Critical 3, Medium and Moderate 2, anything else 1) as Numbers, the
    priority is the plain product of coverage and the two averages, taken
    from left to right, with no normalization and no cap, and the cluster
    shows the two averages and the priority rounded to 2 decimal places.
    The store holds fewer rows than a Number counts exactly. *)
Theorem cluster_priority_formula (rows : list FeedbackRow) (r : ThemeRow)
  (Hrow : In r (Binary64.aggregateByTheme rows))
  (Hsize : (3 * Z.of_nat (List.length rows) < 2 ^ 53)%Z) :
  let members := rows_of_theme (r_theme r) rows in
  members <> []
  /\ r_coverage r = Z.of_nat (List.length members)
  /\ r_avg_urgency r
     = F64.round (mean (map (fun x => urgency_weight (urgency x)) members))
  /\ r_avg_severity r
     = F64.round (mean (map (fun x => severity_weight (severity x)) members))
  /\ Binary64.raw_priority r
     = F64.mul (F64.mul (inject_Z (r_coverage r)) (r_avg_urgency r)) (r_avg_severity r)
  /\ priority (Binary64.cluster_of r)
     = F64.round (Binary64.decimal2 (Binary64.raw_priority r))
  /\ rounded2 (Binary64.decimal2 (Binary64.raw_priority r)) (Binary64.raw_priority r)
  /\ avg_urgency (Binary64.cluster_of r) = F64.round (Binary64.decimal2 (r_avg_urgency r))
  /\ rounded2 (Binary64.decimal2 (r_avg_urgency r)) (r_avg_urgency r)
  /\ avg_severity (Binary64.cluster_of r) = F64.round (Binary64.decimal2 (r_avg_severity r))
  /\ rounded2 (Binary64.decimal2 (r_avg_severity r)) (r_avg_severity r)
  /\ (forall v,
       (v = SqlText (str "High") -> urgency_weight v = 3%Z)
       /\ (v <> SqlText (str "High") -> v = SqlText (str "Medium") -> urgency_weight v = 2%Z)
       /\ (v <> SqlText (str "High") -> v <> SqlText (str "Medium") -> urgency_weight v = 1%Z))
  /\ (forall v,
       (v = SqlText (str "Critical") -> severity_weight v = 3%Z)
       /\ (v <> SqlText (str "Critical") -> v = SqlText (str "Moderate") ->
           severity_weight v = 2%Z)
       /\ (v <> SqlText (str "Critical") -> v <> SqlText (str "Moderate") ->
           severity_weight v = 1%Z)).
Proof.
  unfold Binary64.aggregateByTheme in Hrow. apply in_map_iff in Hrow.
  destruct Hrow as (g & <- & Hin).
  destruct (group_scan_invariant rows) as (Hok & _ & _).
  rewrite Forall_forall in Hok. destruct (Hok g Hin) as (Hne & Hc & Hu & Hs).
  destruct (cluster_of_fields64 (Binary64.group_row g)) as (Hau & Has & Hp).
  set (members := rows_of_theme (g_theme g) rows) in *.
  assert (Hlen : (List.length members <= List.length rows)%nat)
    by apply filter_length_le.
  assert (Hm : (3 * Z.of_nat (List.length members) < 2 ^ 53)%Z) by lia.
  cbn zeta. change (r_theme (Binary64.group_row g)) with (g_theme g).
  fold members.
  split; [exact Hne |]. split; [exact Hc |].
  split.
  { change (r_avg_urgency (Binary64.group_row g))
      with (Binary64.AVG (g_urgency g) (g_count g)).
    rewrite Hu, Hc. apply AVG_mean; [exact Hne | | exact Hm].
    intros x. apply urgency_weight_bounds. }
  split.
  { change (r_avg_severity (Binary64.group_row g))
      with (Binary64.AVG (g_severity g) (g_count g)).
    rewrite Hs, Hc. apply AVG_mean; [exact Hne | | exact Hm].
    intros x. apply severity_weight_bounds. }
  split.
  { unfold Binary64.raw_priority.
    change (r_coverage (Binary64.group_row g)) with (g_count g).
    rewrite of_Z_exact; [reflexivity |]. rewrite Hc. lia. }
  split; [exact Hp |]. split; [apply toFixed2_rounded |].
  split; [exact Hau |]. split; [apply toFixed2_rounded |].
  split; [exact Has |]. split; [apply toFixed2_rounded |].
  split; intros v;
    [apply (weight_cases (str "High") (str "Medium"))
    | apply (weight_cases (str "Critical") (str "Moderate"))].
Qed.

Lemma cluster_priority_formula_witness :
  r_coverage sample_theme_row64 = 2%Z
  /\ r_avg_urgency sample_theme_row64
     = F64.round (mean (map (fun x => urgency_weight (urgency x))
                            (rows_of_theme (r_theme sample_theme_row64) sample_rows)))
  /\ priority (Binary64.cluster_of sample_theme_row64)
     = F64.round (Binary64.decimal2 (Binary64.raw_priority sample_theme_row64)).
Proof.
  assert (Hrow : In sample_theme_row64 (Binary64.aggregateByTheme sample_rows))
    by (left; vm_compute; reflexivity).
  assert (Hsize : (3 * Z.of_nat (List.length sample_rows) < 2 ^ 53)%Z)
    by (vm_compute; reflexivity).
  destruct (cluster_priority_formula sample_rows sample_theme_row64 Hrow Hsize)
    as (_ & Hc & Hu & _ & _ & Hp & _).
  split; [exact Hc | split; [exact Hu | exact Hp]].
Defined.

(** Where the rounding of the platform shows.  Forty records with weights
    adding up to 41 have the mean 41/40, which is 1.025; the Number
    nearest to it lies below, so the cluster shows 1.02 and not 1.03. *)
Example mean_41_40 :
  match Binary64.aggregateByTheme forty_rows, aggregateByTheme forty_rows with
  | [r64], [r] =>
      r_avg_urgency r == 41 # 40
      /\ r_avg_urgency r64 < 41 # 40
      /\ Binary64.decimal2 (r_avg_urgency r64) == 102 # 100
      /\ toFixed2 (r_avg_urgency r) == 103 # 100
  | _, _ => False
  end.
Proof. vm_compute. repeat split; intros H; discriminate H. Qed.

(** A theme of 24 records with urgency weights adding up to 27 and severity
    weights adding up to 49 has the exact priority 55.125; the product of
    the Numbers lies below it and the cluster shows 55.12. *)
Example priority_55_12 :
  let g := mkGroup (SqlText (str "Bug")) 24 27 49 in
  raw_priority (group_row g) == 55125 # 1000
  /\ Binary64.decimal2 (Binary64.raw_priority (Binary64.group_row g)) == 5512 # 100
  /\ toFixed2 (raw_priority (group_row g)) == 5513 # 100.
Proof. vm_compute. repeat split; intros H; discriminate H. Qed.
